(** * A verification development of the to-do list web application (script.js)

    The model follows [src/script.js]: the [Task] class, the [TodoApp]
    class with its task array, current filter, editing id and its use of
    [localStorage], together with the parts of the JavaScript platform the
    code relies on ([String.prototype.trim], [JSON.stringify],
    [JSON.parse], [Date] construction and [Date.prototype.toISOString]).

    JavaScript strings are lists of UTF-16 code units, kept as [Z].
    JavaScript numbers are kept as exact decimals (the rounding to
    binary64 that the engine applies to long literals, -0, NaN and the
    infinities are not modelled). *)

From Stdlib Require Import ZArith Lia String Ascii.
From stdpp Require Import base list.

Open Scope Z_scope.
#[local] Set Warnings "-register-all".

(* ================================================================== *)
(** ** JavaScript strings *)

(** A JavaScript string: its UTF-16 code units. *)
Definition jstr := list Z.

(** ASCII literals of the source, as JavaScript strings. *)
Definition js (s : string) : jstr :=
  map (fun a => Z.of_nat (nat_of_ascii a)) (list_ascii_of_string s).

Definition code_unit (c : Z) : Prop := 0 <= c <= 65535.

(** The WhiteSpace and LineTerminator code points removed by
    [String.prototype.trim]: TAB, VT, FF, SP, NBSP, ZWNBSP, the Zs
    category, LF, CR, LS and PS.  All of them are single code units. *)
Definition is_trim_space (c : Z) : bool :=
  (c =? 9) || (c =? 10) || (c =? 11) || (c =? 12) || (c =? 13) ||
  (c =? 32) || (c =? 160) || (c =? 5760) ||
  ((8192 <=? c) && (c <=? 8202)) ||
  (c =? 8232) || (c =? 8233) || (c =? 8239) || (c =? 8287) ||
  (c =? 12288) || (c =? 65279).

Fixpoint drop_space (s : jstr) : jstr :=
  match s with
  | [] => []
  | c :: r => if is_trim_space c then drop_space r else s
  end.

(** [String.prototype.trim]. *)
Definition trim (s : jstr) : jstr := rev (drop_space (rev (drop_space s))).

(* ================================================================== *)
(** ** Decimal digits *)

Definition is_digit (c : Z) : bool := (48 <=? c) && (c <=? 57).

(** Decimal digits of [n >= 0], least significant first. *)
Fixpoint dec_rev (fuel : nat) (n : Z) : jstr :=
  match fuel with
  | O => []
  | S f => if n <? 10 then [48 + n] else (48 + n mod 10) :: dec_rev f (n / 10)
  end.

(** Decimal representation of [n >= 0], most significant digit first. *)
Definition dec (n : Z) : jstr := rev (dec_rev (S (Z.to_nat (Z.log2 n))) n).

(** [dec] left-padded with zeros to [w] digits (used for fixed-width
    fields of date strings). *)
Definition pad (w : nat) (n : Z) : jstr :=
  let d := dec n in repeat 48 (w - length d) ++ d.

(** The value of a list of decimal digit code units. *)
Definition digits_value (l : jstr) : Z := fold_left (fun a d => a * 10 + (d - 48)) l 0.

(** The longest prefix of decimal digits, and what follows it. *)
Fixpoint span_digits (s : jstr) : jstr * jstr :=
  match s with
  | c :: r => if is_digit c then let '(d, r') := span_digits r in (c :: d, r') else ([], s)
  | [] => ([], [])
  end.

(* ================================================================== *)
(** ** Numbers *)

(** A finite JavaScript number as an exact decimal: [NDec m e] is
    [m * 10^e] with [m <> 0] and [m] not a multiple of ten, so that
    every value has exactly one representation. *)
Inductive number := NZero | NDec (m : Z) (e : Z).

Fixpoint strip_zeros (fuel : nat) (m e : Z) : Z * Z :=
  match fuel with
  | O => (m, e)
  | S f => if m mod 10 =? 0 then strip_zeros f (m / 10) (e + 1) else (m, e)
  end.

(** The number [m * 10^e]. *)
Definition mk_number (m e : Z) : number :=
  if m =? 0 then NZero
  else let '(m', e') := strip_zeros (S (Z.to_nat (Z.log2 (Z.abs m)))) m e in NDec m' e'.

Definition num_of_Z (z : Z) : number := mk_number z 0.

(** The integer value of a number, when it is an integer. *)
Definition int_value (n : number) : option Z :=
  match n with
  | NZero => Some 0
  | NDec m e => if 0 <=? e then Some (m * 10 ^ e) else None
  end.

Definition exp_part (x : Z) : jstr :=
  js "e" ++ (if x <? 0 then js "-" else js "+") ++ dec (Z.abs x).

(** [Number::toString] (ECMA-262 6.1.6.1.20) for a positive [s * 10^e]:
    [k] is the number of digits of [s] and [n = k + e]. *)
Definition pos_to_string (s e : Z) : jstr :=
  let d := dec s in
  let k := Z.of_nat (length d) in
  let n := k + e in
  if (k <=? n) && (n <=? 21) then d ++ repeat 48 (Z.to_nat (n - k))
  else if (0 <? n) && (n <=? 21) then take (Z.to_nat n) d ++ js "." ++ drop (Z.to_nat n) d
  else if (-6 <? n) && (n <=? 0) then js "0." ++ repeat 48 (Z.to_nat (- n)) ++ d
  else if k =? 1 then d ++ exp_part (n - 1)
  else take 1 d ++ js "." ++ drop 1 d ++ exp_part (n - 1).

Definition number_to_string (x : number) : jstr :=
  match x with
  | NZero => js "0"
  | NDec m e => if m <? 0 then js "-" ++ pos_to_string (- m) e else pos_to_string m e
  end.

(* ================================================================== *)
(** ** JavaScript values *)

(** The values the code handles: primitives, and the arrays and plain
    objects that [JSON.parse] builds.  An object lists its own
    properties in creation order, each key once. *)
Inductive jsval :=
| JUndefined
| JNull
| JBool (b : bool)
| JNumber (n : number)
| JString (s : jstr)
| JArray (l : list jsval)
| JObject (props : list (jstr * jsval)).

(** ToBoolean. *)
Definition truthy (v : jsval) : bool :=
  match v with
  | JUndefined | JNull => false
  | JBool b => b
  | JNumber n => match n with NZero => false | _ => true end
  | JString s => match s with [] => false | _ => true end
  | JArray _ | JObject _ => true
  end.

Definition number_eqb (x y : number) : bool :=
  match x, y with
  | NZero, NZero => true
  | NDec m e, NDec m' e' => (m =? m') && (e =? e')
  | _, _ => false
  end.

(** Strict equality [===].  Two arrays or objects are [===] only when
    they are the same object; the values compared by the code ([t.id]
    against an id argument) are never the same object in the model, so
    compound values compare unequal. *)
Definition strict_eq (x y : jsval) : bool :=
  match x, y with
  | JUndefined, JUndefined | JNull, JNull => true
  | JBool a, JBool b => Bool.eqb a b
  | JNumber a, JNumber b => number_eqb a b
  | JString a, JString b => bool_decide (a = b)
  | _, _ => false
  end.

(* ================================================================== *)
(** ** Completions *)

Inductive js_error := SyntaxError | TypeError.

(** The completion of an operation that may throw. *)
Inductive except (A : Type) := Ok (a : A) | Throw (e : js_error).
Arguments Ok {A} a.
Arguments Throw {A} e.

Global Instance except_ret : MRet except := fun A a => Ok a.
Global Instance except_bind : MBind except :=
  fun A B k m => match m with Ok a => k a | Throw e => Throw e end.

Fixpoint emap {A B} (f : A -> except B) (l : list A) : except (list B) :=
  match l with
  | [] => Ok []
  | x :: r => y ← f x; ys ← emap f r; Ok (y :: ys)
  end.

(* ================================================================== *)
(** ** JSON.stringify *)

Definition hex_digit (d : Z) : Z := if d <? 10 then 48 + d else 87 + d.

(** [\uXXXX] with lowercase hexadecimal digits (UnicodeEscape). *)
Definition unicode_escape (c : Z) : jstr :=
  [92; 117; hex_digit (c / 4096); hex_digit ((c / 256) mod 16);
   hex_digit ((c / 16) mod 16); hex_digit (c mod 16)].

Definition is_high_surrogate (c : Z) : bool := (55296 <=? c) && (c <=? 56319).
Definition is_low_surrogate (c : Z) : bool := (56320 <=? c) && (c <=? 57343).

(** The body of QuoteJSONString, over code units: the short escapes,
    [\u00XX] for the other control characters and for lone surrogates,
    every other code unit (and every surrogate pair) as it is. *)
Fixpoint quote_units (s : jstr) : jstr :=
  match s with
  | [] => []
  | c :: r =>
      if c =? 8 then [92; 98] ++ quote_units r
      else if c =? 9 then [92; 116] ++ quote_units r
      else if c =? 10 then [92; 110] ++ quote_units r
      else if c =? 12 then [92; 102] ++ quote_units r
      else if c =? 13 then [92; 114] ++ quote_units r
      else if c =? 34 then [92; 34] ++ quote_units r
      else if c =? 92 then [92; 92] ++ quote_units r
      else if c <? 32 then unicode_escape c ++ quote_units r
      else if is_high_surrogate c then
        match r with
        | c2 :: r2 =>
            if is_low_surrogate c2 then c :: c2 :: quote_units r2
            else unicode_escape c ++ quote_units r
        | [] => unicode_escape c
        end
      else if is_low_surrogate c then unicode_escape c ++ quote_units r
      else c :: quote_units r
  end.

(** QuoteJSONString. *)
Definition quote (s : jstr) : jstr := [34] ++ quote_units s ++ [34].

Fixpoint join_comma (l : list jstr) : jstr :=
  match l with
  | [] => []
  | [x] => x
  | x :: r => x ++ [44] ++ join_comma r
  end.

(** An array index: the canonical decimal form of an integer below
    [2^32 - 1]. *)
Definition is_array_index (k : jstr) : bool :=
  match k with
  | [] => false
  | c :: r =>
      forallb is_digit k && (bool_decide (r = []) || negb (c =? 48)) &&
      (digits_value k <? 4294967295)
  end.

Fixpoint insert_index {A} (k : jstr) (x : A) (l : list (jstr * A)) : list (jstr * A) :=
  match l with
  | [] => [(k, x)]
  | (k', x') :: r =>
      if digits_value k <? digits_value k' then (k, x) :: l
      else (k', x') :: insert_index k x r
  end.

(** OrdinaryOwnPropertyKeys: array indices in ascending order, then the
    other keys in creation order. *)
Definition own_keys_order {A} (ps : list (jstr * A)) : list (jstr * A) :=
  fold_right (fun '(k, x) acc => insert_index k x acc) [] (filter (fun p => is_array_index p.1) ps)
  ++ filter (fun p => negb (is_array_index p.1)) ps.

(** The members of SerializeJSONObject: properties whose value
    serializes to [undefined] are left out. *)
Definition object_members (ps : list (jstr * option jstr)) : list jstr :=
  omap (fun '(k, o) => match o with Some y => Some (quote k ++ [58] ++ y) | None => None end)
    (own_keys_order ps).

(** SerializeJSONProperty; [None] is [undefined].  A [Date] is
    serialized through its [toJSON], which the caller applies first
    (see [task_record]). *)
Fixpoint ser (v : jsval) : option jstr :=
  match v with
  | JUndefined => None
  | JNull => Some (js "null")
  | JBool true => Some (js "true")
  | JBool false => Some (js "false")
  | JNumber n => Some (number_to_string n)
  | JString s => Some (quote s)
  | JArray l =>
      Some ([91] ++ join_comma (map (fun x => match ser x with Some y => y | None => js "null" end) l) ++ [93])
  | JObject ps =>
      Some ([123] ++ join_comma (object_members (map (fun '(k, x) => (k, ser x)) ps)) ++ [125])
  end.

(** [JSON.stringify(v)] without replacer or indentation. *)
Definition JSON_stringify (v : jsval) : option jstr := ser v.

(* ================================================================== *)
(** ** JSON.parse *)

(** JSON whitespace: TAB, LF, CR and SP. *)
Definition is_json_ws (c : Z) : bool := (c =? 9) || (c =? 10) || (c =? 13) || (c =? 32).

Fixpoint skip_ws (s : jstr) : jstr :=
  match s with
  | c :: r => if is_json_ws c then skip_ws r else s
  | [] => []
  end.

Definition hex_value (c : Z) : option Z :=
  if (48 <=? c) && (c <=? 57) then Some (c - 48)
  else if (97 <=? c) && (c <=? 102) then Some (c - 87)
  else if (65 <=? c) && (c <=? 70) then Some (c - 55)
  else None.

(** The code unit denoted by a backslash followed by [c]: quotation mark,
    reverse solidus, solidus, b, f, n, r or t. *)
Definition short_escape (c : Z) : option Z :=
  if c =? 34 then Some 34 else if c =? 92 then Some 92
  else if c =? 47 then Some 47 else if c =? 98 then Some 8
  else if c =? 102 then Some 12 else if c =? 110 then Some 10
  else if c =? 114 then Some 13 else if c =? 116 then Some 9
  else None.

Definition cons_fst {A B} (x : A) (o : option (list A * B)) : option (list A * B) :=
  match o with Some (l, r) => Some (x :: l, r) | None => None end.

(** The rest of a JSON string after its opening quote: its code units
    and the input after the closing quote. *)
Fixpoint p_str (s : jstr) : option (jstr * jstr) :=
  match s with
  | [] => None
  | c :: r =>
      if c =? 34 then Some ([], r)
      else if c =? 92 then
        match r with
        | [] => None
        | e :: r' =>
            if e =? 117 then
              match r' with
              | h1 :: h2 :: h3 :: h4 :: r'' =>
                  match hex_value h1, hex_value h2, hex_value h3, hex_value h4 with
                  | Some a, Some b, Some c', Some d =>
                      cons_fst (((a * 16 + b) * 16 + c') * 16 + d) (p_str r'')
                  | _, _, _, _ => None
                  end
              | _ => None
              end
            else match short_escape e with
                 | Some u => cons_fst u (p_str r')
                 | None => None
                 end
        end
      else if c <? 32 then None
      else cons_fst c (p_str r)
  end.

(** A JSON number: [-]? int frac? exp?, as the number it denotes. *)
Definition p_number (s : jstr) : option (number * jstr) :=
  let '(sign, s1) := match s with
                     | c :: r => if c =? 45 then (-1, r) else (1, s)
                     | [] => (1, s)
                     end in
  let int_part :=
    match s1 with
    | c :: r =>
        if c =? 48 then Some (0, r)
        else if (49 <=? c) && (c <=? 57) then
          let '(ds, r') := span_digits s1 in Some (digits_value ds, r')
        else None
    | [] => None
    end in
  match int_part with
  | None => None
  | Some (i, s2) =>
      let frac_part :=
        match s2 with
        | c :: r =>
            if c =? 46 then
              let '(fs, r') := span_digits r in
              match fs with [] => None | _ => Some (digits_value fs, Z.of_nat (length fs), r') end
            else Some (0, 0, s2)
        | [] => Some (0, 0, s2)
        end in
      match frac_part with
      | None => None
      | Some (f, nf, s3) =>
          let exp_part :=
            match s3 with
            | c :: r =>
                if (c =? 101) || (c =? 69) then
                  let '(esign, r1) := match r with
                                      | d :: r2 => if d =? 43 then (1, r2)
                                                   else if d =? 45 then (-1, r2) else (1, r)
                                      | [] => (1, r)
                                      end in
                  let '(es, r') := span_digits r1 in
                  match es with [] => None | _ => Some (esign * digits_value es, r') end
                else Some (0, s3)
            | [] => Some (0, s3)
            end in
          match exp_part with
          | None => None
          | Some (x, s4) => Some (mk_number (sign * (i * 10 ^ nf + f)) (x - nf), s4)
          end
      end
  end.

Fixpoint strip_prefix (p s : jstr) : option jstr :=
  match p, s with
  | [], _ => Some s
  | c :: p', d :: s' => if c =? d then strip_prefix p' s' else None
  | _ :: _, [] => None
  end.

(** CreateDataProperty on a parsed object: a repeated key keeps its
    first position and takes the later value. *)
Fixpoint add_prop (k : jstr) (v : jsval) (ps : list (jstr * jsval)) : list (jstr * jsval) :=
  match ps with
  | [] => [(k, v)]
  | (k', v') :: r => if bool_decide (k = k') then (k, v) :: r else (k', v') :: add_prop k v r
  end.

Definition wrap {A B} (f : A -> B) (o : option (A * jstr)) : option (B * jstr) :=
  match o with Some (a, r) => Some (f a, r) | None => None end.

(** A JSON value (after optional whitespace), its array elements after
    an opening bracket, and its object members after an opening brace.
    The fuel only bounds the
    recursion: every call consumes a character or directly follows one
    that did, so [2 * length + 2] is enough for any input. *)
Fixpoint p_value (n : nat) (s : jstr) : option (jsval * jstr) :=
  match n with
  | O => None
  | S n' =>
      match skip_ws s with
      | [] => None
      | c :: r =>
          if c =? 34 then wrap JString (p_str r)
          else if c =? 91 then
            match skip_ws r with
            | d :: r' => if d =? 93 then Some (JArray [], r') else wrap JArray (p_elems n' r)
            | [] => None
            end
          else if c =? 123 then
            match skip_ws r with
            | d :: r' => if d =? 125 then Some (JObject [], r') else p_members n' r []
            | [] => None
            end
          else if c =? 116 then option_map (fun r' => (JBool true, r')) (strip_prefix (js "rue") r)
          else if c =? 102 then option_map (fun r' => (JBool false, r')) (strip_prefix (js "alse") r)
          else if c =? 110 then option_map (fun r' => (JNull, r')) (strip_prefix (js "ull") r)
          else wrap JNumber (p_number (c :: r))
      end
  end
with p_elems (n : nat) (s : jstr) : option (list jsval * jstr) :=
  match n with
  | O => None
  | S n' =>
      match p_value n' s with
      | None => None
      | Some (v, r) =>
          match skip_ws r with
          | d :: r' =>
              if d =? 44 then cons_fst v (p_elems n' r')
              else if d =? 93 then Some ([v], r')
              else None
          | [] => None
          end
      end
  end
with p_members (n : nat) (s : jstr) (obj : list (jstr * jsval)) : option (jsval * jstr) :=
  match n with
  | O => None
  | S n' =>
      match skip_ws s with
      | q :: r =>
          if q =? 34 then
            match p_str r with
            | None => None
            | Some (k, r1) =>
                match skip_ws r1 with
                | d :: r2 =>
                    if d =? 58 then
                      match p_value n' r2 with
                      | None => None
                      | Some (v, r3) =>
                          match skip_ws r3 with
                          | e :: r4 =>
                              if e =? 44 then p_members n' r4 (add_prop k v obj)
                              else if e =? 125 then Some (JObject (add_prop k v obj), r4)
                              else None
                          | [] => None
                          end
                      end
                    else None
                | [] => None
                end
            end
          else None
      | [] => None
      end
  end.

(** [JSON.parse(s)] without reviver: a [SyntaxError] unless the whole
    input is one JSON value surrounded by whitespace. *)
Definition JSON_parse (s : jstr) : except jsval :=
  match p_value (2 * length s + 2) s with
  | Some (v, r) => match skip_ws r with [] => Ok v | _ => Throw SyntaxError end
  | None => Throw SyntaxError
  end.

(* ================================================================== *)
(** ** Dates *)

(** A [Date] holds a time value: milliseconds since the epoch, or NaN
    ([None], an invalid date). *)
Definition time_value := option Z.

Definition msPerDay : Z := 86400000.

(** TimeClip. *)
Definition time_clip (x : Z) : time_value :=
  if Z.abs x <=? 8640000000000000 then Some x else None.

(** Year of the era (starting in March), month and day of a day of a
    400-year era of the proleptic Gregorian calendar. *)
Definition civil_of_doe (doe : Z) : Z * Z * Z :=
  let yoe := (doe - doe / 1460 + doe / 36524 - doe / 146096) / 365 in
  let doy := doe - (365 * yoe + yoe / 4 - yoe / 100) in
  let mp := (5 * doy + 2) / 153 in
  let d := doy - (153 * mp + 2) / 5 + 1 in
  let m := if mp <? 10 then mp + 3 else mp - 9 in
  (yoe, m, d).

(** Year, month (1-12) and date of day number [z] (day 0 is 1970-01-01):
    YearFromTime, MonthFromTime and DateFromTime of ECMA-262 21.4.1. *)
Definition civil_from_days (z : Z) : Z * Z * Z :=
  let z' := z + 719468 in
  let era := z' / 146097 in
  let doe := z' - era * 146097 in
  let '(yoe, m, d) := civil_of_doe doe in
  (yoe + era * 400 + (if m <=? 2 then 1 else 0), m, d).

(** Day of the era of a year of the era, month and day. *)
Definition doe_of_civil (yoe m d : Z) : Z :=
  let doy := (153 * (if 2 <? m then m - 3 else m + 9) + 2) / 5 + d - 1 in
  yoe * 365 + yoe / 4 - yoe / 100 + doy.

(** MakeDay: the day number of a year, month (1-12) and date. *)
Definition days_from_civil (y m d : Z) : Z :=
  let y' := y - (if m <=? 2 then 1 else 0) in
  let era := y' / 400 in
  let yoe := y' - era * 400 in
  era * 146097 + doe_of_civil yoe m d - 719468.

Definition leap_year (y : Z) : bool :=
  (y mod 4 =? 0) && (negb (y mod 100 =? 0) || (y mod 400 =? 0)).

Definition days_in_month (y m : Z) : Z :=
  if m =? 2 then (if leap_year y then 29 else 28)
  else if (m =? 4) || (m =? 6) || (m =? 9) || (m =? 11) then 30
  else 31.

Definition year_string (y : Z) : jstr :=
  if (0 <=? y) && (y <=? 9999) then pad 4 y
  else (if y <? 0 then js "-" else js "+") ++ pad 6 (Z.abs y).

(** [Date.prototype.toISOString] of a valid time value:
    YYYY-MM-DDTHH:mm:ss.sssZ, with a signed six-digit year outside
    0-9999. *)
Definition toISOString (tv : Z) : jstr :=
  let day := tv / msPerDay in
  let msd := tv mod msPerDay in
  let '(y, mo, d) := civil_from_days day in
  let ms := msd mod 1000 in
  let sec := msd / 1000 in
  let mins := sec / 60 in
  year_string y ++ js "-" ++ pad 2 mo ++ js "-" ++ pad 2 d ++ js "T" ++
  pad 2 (mins / 60) ++ js ":" ++ pad 2 (mins mod 60) ++ js ":" ++ pad 2 (sec mod 60) ++
  js "." ++ pad 3 ms ++ js "Z".

(** [Date.prototype.toJSON], as [JSON.stringify] applies it to a [Date]. *)
Definition date_toJSON (d : time_value) : jsval :=
  match d with Some tv => JString (toISOString tv) | None => JNull end.

(** [n] decimal digits. *)
Fixpoint read_digits (n : nat) (s : jstr) : option (jstr * jstr) :=
  match n, s with
  | O, _ => Some ([], s)
  | S n', c :: r => if is_digit c then cons_fst c (read_digits n' r) else None
  | S _, [] => None
  end.

Definition read_fixed (n : nat) (s : jstr) : option (Z * jstr) :=
  match read_digits n s with Some (ds, r) => Some (digits_value ds, r) | None => None end.

Definition expect (c : Z) (s : jstr) : option jstr :=
  match s with d :: r => if c =? d then Some r else None | [] => None end.

Definition read_year (s : jstr) : option (Z * jstr) :=
  match s with
  | c :: r =>
      if c =? 43 then read_fixed 6 r
      else if c =? 45 then
        match read_fixed 6 r with
        | Some (y, r') => if y =? 0 then None else Some (- y, r')
        | None => None
        end
      else read_fixed 4 s
  | [] => None
  end.

(** Date.parse of a string in the form [toISOString] produces, with
    fields in range.  Other strings, including the shorter forms of the
    Date Time String Format, are left to [date_parse]'s fallback. *)
Definition parse_iso (s : jstr) : option Z :=
  y_r ← read_year s; let '(y, r) := y_r in
  r ← expect 45 r; mo_r ← read_fixed 2 r; let '(mo, r) := mo_r in
  r ← expect 45 r; d_r ← read_fixed 2 r; let '(d, r) := d_r in
  r ← expect 84 r; h_r ← read_fixed 2 r; let '(h, r) := h_r in
  r ← expect 58 r; mi_r ← read_fixed 2 r; let '(mi, r) := mi_r in
  r ← expect 58 r; s_r ← read_fixed 2 r; let '(sc, r) := s_r in
  r ← expect 46 r; ms_r ← read_fixed 3 r; let '(ms, r) := ms_r in
  r ← expect 90 r;
  if bool_decide (r = []) && (1 <=? mo) && (mo <=? 12) && (1 <=? d) &&
     (d <=? days_in_month y mo) && (h <=? 23) && (mi <=? 59) && (sc <=? 59)
  then time_clip (days_from_civil y mo d * msPerDay + ((h * 60 + mi) * 60 + sc) * 1000 + ms)
  else None.

(** TimeClip of a number given to the [Date] constructor. *)
Definition time_clip_number (n : number) : time_value :=
  match n with
  | NZero => Some 0
  | NDec m e =>
      if 0 <=? e then time_clip (m * 10 ^ e)
      else if 8640000000000000 * 10 ^ (- e) <? Z.abs m then None
      else Some (Z.quot m (10 ^ (- e)))
  end.

(** ToString, for the values [JSON.parse] builds.  An object whose own
    [toString] property (never callable in parsed data) hides
    [Object.prototype.toString] has no primitive value: TypeError.  An
    array is joined with commas, [null] and [undefined] elements
    giving the empty string. *)
Fixpoint to_str (v : jsval) : except jstr :=
  match v with
  | JUndefined => Ok (js "undefined")
  | JNull => Ok (js "null")
  | JBool b => Ok (if b then js "true" else js "false")
  | JNumber n => Ok (number_to_string n)
  | JString s => Ok s
  | JArray l =>
      match (fix go (l : list jsval) : except (list jstr) :=
               match l with
               | [] => Ok []
               | x :: r =>
                   match (match x with JUndefined | JNull => Ok [] | _ => to_str x end), go r with
                   | Ok y, Ok ys => Ok (y :: ys)
                   | Throw e, _ => Throw e
                   | Ok _, Throw e => Throw e
                   end
               end) l with
      | Ok parts => Ok (join_comma parts)
      | Throw e => Throw e
      end
  | JObject ps =>
      if existsb (fun p => bool_decide (p.1 = js "toString")) ps then Throw TypeError
      else Ok (js "[object Object]")
  end.

(* ================================================================== *)
(** ** The application *)

Section TodoApp.

(** How the engine parses date strings outside the format of
    [toISOString]: implementation-defined (ECMA-262 21.4.3.2), so a
    parameter of the whole development. *)
Variable date_parse_fallback : jstr -> option Z.

(** [Date.parse]. *)
Definition date_parse (s : jstr) : time_value :=
  match parse_iso s with
  | Some tv => Some tv
  | None => match date_parse_fallback s with Some x => time_clip x | None => None end
  end.

(** [new Date(value)] with one argument: ToPrimitive, then a string is
    parsed and anything else converted with ToNumber and clipped. *)
Definition new_Date (v : jsval) : except time_value :=
  match v with
  | JUndefined => Ok None
  | JNull => Ok (Some 0)
  | JBool b => Ok (Some (if b then 1 else 0))
  | JNumber n => Ok (time_clip_number n)
  | JString s => Ok (date_parse s)
  | JArray _ | JObject _ => s ← to_str v; Ok (date_parse s)
  end.

(** An instance of class [Task]. *)
Record Task := mkTask {
  id : jsval;
  text : jsval;
  completed : jsval;
  createdAt : time_value
}.

(** [new Task(id, text, completed = false, createdAt)]: a default
    parameter also replaces an explicit [undefined]. *)
Definition new_Task (i x c : jsval) (d : time_value) : Task :=
  mkTask i x (match c with JUndefined => JBool false | _ => c end) d.

Definition set_completed (t : Task) (c : jsval) : Task :=
  mkTask (id t) (text t) c (createdAt t).

Definition set_text (t : Task) (x : jsval) : Task :=
  mkTask (id t) x (completed t) (createdAt t).

(** The state of a [TodoApp] and of what it reads and writes: the
    [taskInput] field, the alerts shown, the [tasks] key of
    [localStorage] and the errors logged to the console. *)
Record TodoApp := mkApp {
  tasks : list Task;
  currentFilter : jsval;
  editingId : jsval;
  taskInput : jstr;
  alerts : list jstr;
  storage : option jstr;
  console_errors : list js_error
}.

Definition with_tasks (s : TodoApp) (ts : list Task) : TodoApp :=
  mkApp ts (currentFilter s) (editingId s) (taskInput s) (alerts s) (storage s) (console_errors s).
Definition with_filter (s : TodoApp) (f : jsval) : TodoApp :=
  mkApp (tasks s) f (editingId s) (taskInput s) (alerts s) (storage s) (console_errors s).
Definition with_editing (s : TodoApp) (i : jsval) : TodoApp :=
  mkApp (tasks s) (currentFilter s) i (taskInput s) (alerts s) (storage s) (console_errors s).
Definition with_input (s : TodoApp) (x : jstr) : TodoApp :=
  mkApp (tasks s) (currentFilter s) (editingId s) x (alerts s) (storage s) (console_errors s).
Definition with_storage (s : TodoApp) (st : option jstr) : TodoApp :=
  mkApp (tasks s) (currentFilter s) (editingId s) (taskInput s) (alerts s) st (console_errors s).

(** [alert(msg)]. *)
Definition alert (s : TodoApp) (msg : jstr) : TodoApp :=
  mkApp (tasks s) (currentFilter s) (editingId s) (taskInput s) (alerts s ++ [msg]) (storage s) (console_errors s).

(** [console.error(...)]. *)
Definition log_error (s : TodoApp) (e : js_error) : TodoApp :=
  mkApp (tasks s) (currentFilter s) (editingId s) (taskInput s) (alerts s) (storage s) (console_errors s ++ [e]).

Definition msg_empty : jstr := js "Please enter a task!".
Definition msg_too_long : jstr := js "Task is too long! Maximum 100 characters.".
Definition msg_edit_empty : jstr := js "Task cannot be empty!".

(** The value a method returns: every method of the class ends with
    [return;] or falls off its end, so [undefined]; [RTask] is the
    returned [Task] a caller could expect. *)
Inductive retval := RUndefined | RTask (t : Task).

(** The plain object [saveTasks] builds for a task. *)
Definition task_record (t : Task) : jsval :=
  JObject [(js "id", id t); (js "text", text t); (js "completed", completed t);
           (js "createdAt", date_toJSON (createdAt t))].

(** [saveTasks()]: [localStorage.setItem('tasks', JSON.stringify(...))]. *)
Definition saveTasks (s : TodoApp) : TodoApp :=
  with_storage s (match JSON_stringify (JArray (map task_record (tasks s))) with
                  | Some str => Some str
                  | None => Some (js "undefined")
                  end).

(** Property access [v.k] for the keys [loadTasks] reads, none of which
    is a property of a primitive or of [Array.prototype]. *)
Fixpoint prop_lookup (k : jstr) (ps : list (jstr * jsval)) : jsval :=
  match ps with
  | [] => JUndefined
  | (k', v) :: r => if bool_decide (k = k') then v else prop_lookup k r
  end.

Definition get_prop (v : jsval) (k : jstr) : except jsval :=
  match v with
  | JUndefined | JNull => Throw TypeError
  | JObject ps => Ok (prop_lookup k ps)
  | _ => Ok JUndefined
  end.

(** [t => new Task(t.id, t.text, t.completed, new Date(t.createdAt))]. *)
Definition task_of_json (t : jsval) : except Task :=
  i ← get_prop t (js "id");
  x ← get_prop t (js "text");
  c ← get_prop t (js "completed");
  ca ← get_prop t (js "createdAt");
  d ← new_Date ca;
  Ok (new_Task i x c d).

(** [data.map(...)]: a TypeError unless [data] is an array (a parsed
    value has no callable [map] otherwise). *)
Definition load_map (data : jsval) : except (list Task) :=
  match data with
  | JArray l => emap task_of_json l
  | _ => Throw TypeError
  end.

(** [loadTasks()]. *)
Definition loadTasks (s : TodoApp) : TodoApp :=
  match storage s with
  | None => s
  | Some stored =>
      if bool_decide (stored = []) then s
      else match (data ← JSON_parse stored; load_map data) with
           | Ok ts => with_tasks s ts
           | Throw e => with_tasks (log_error s e) []
           end
  end.

(** [new TodoApp()] with [localStorage] holding [stored] under
    [tasks]; the task input starts empty. *)
Definition new_TodoApp (stored : option jstr) : TodoApp :=
  loadTasks (mkApp [] (JString (js "all")) JNull [] [] stored []).

(** [deleteTask(id)], with the answer to [confirm]. *)
Definition deleteTask (s : TodoApp) (i : jsval) (confirmed : bool) : TodoApp :=
  if confirmed then saveTasks (with_tasks s (List.filter (fun t => negb (strict_eq (id t) i)) (tasks s)))
  else s.

Definition find_task (ts : list Task) (i : jsval) : option (nat * Task) :=
  list_find (fun t => strict_eq (id t) i = true) ts.

(** [toggleTask(id)]: [find] returns the first match, updated in place. *)
Definition toggleTask (s : TodoApp) (i : jsval) : TodoApp :=
  match find_task (tasks s) i with
  | Some (k, t) =>
      saveTasks (with_tasks s (<[k := set_completed t (JBool (negb (truthy (completed t))))]> (tasks s)))
  | None => s
  end.


(** [closeEditModal()]. *)
Definition closeEditModal (s : TodoApp) : TodoApp := with_editing s JNull.

(** [saveEdit(id, newText)]. *)
Definition saveEdit (s : TodoApp) (i : jsval) (newText : jstr) : TodoApp :=
  let x := trim newText in
  if bool_decide (x = []) then alert s msg_edit_empty
  else match find_task (tasks s) i with
       | Some (k, t) => closeEditModal (saveTasks (with_tasks s (<[k := set_text t (JString x)]> (tasks s))))
       | None => s
       end.

(** [clearCompleted()], with the answer to [confirm]. *)
Definition clearCompleted (s : TodoApp) (confirmed : bool) : TodoApp :=
  if confirmed then saveTasks (with_tasks s (List.filter (fun t => negb (truthy (completed t))) (tasks s)))
  else s.

(** [clearAll()], with the answer to [confirm]. *)
Definition clearAll (s : TodoApp) (confirmed : bool) : TodoApp :=
  if confirmed then saveTasks (with_tasks s []) else s.

(** [setFilter(filter)]. *)
Definition setFilter (s : TodoApp) (f : jsval) : TodoApp := with_filter s f.

(** [getFilteredTasks()]: the [switch] compares with [===]. *)
Definition getFilteredTasks (s : TodoApp) : list Task :=
  match currentFilter s with
  | JString f =>
      if bool_decide (f = js "active") then List.filter (fun t => negb (truthy (completed t))) (tasks s)
      else if bool_decide (f = js "completed") then List.filter (fun t => truthy (completed t)) (tasks s)
      else tasks s
  | _ => tasks s
  end.

(** *** Rendering *)

(** [getFormattedDate()]: [toLocaleDateString('en-US', ...)] depends on
    the time zone and the locale data of the engine, so it is a
    parameter. *)
Variable getFormattedDate : time_value -> jstr.

(** The HTML fragment serialization of a text node ("escaping a string"
    outside attribute mode): [&], NO-BREAK SPACE, [<] and [>] become
    character references, every other code unit stays. *)
Fixpoint escape_text (s : jstr) : jstr :=
  match s with
  | [] => []
  | c :: r =>
      (if c =? 38 then js "&amp;"
       else if c =? 160 then js "&nbsp;"
       else if c =? 60 then js "&lt;"
       else if c =? 62 then js "&gt;"
       else [c]) ++ escape_text r
  end.

(** [escapeHtml(text)]: [div.textContent = text] converts to a nullable
    DOMString ([null] and [undefined] give no text node, anything else
    goes through ToString), then [div.innerHTML] serializes the text. *)
Definition escapeHtml (v : jsval) : except jstr :=
  match v with
  | JUndefined | JNull => Ok []
  | _ => x ← to_str v; Ok (escape_text x)
  end.

(** [updateStats()]: the numbers written to [totalCount], [activeCount]
    and [completedCount]. *)
Definition updateStats (s : TodoApp) : Z * Z * Z :=
  let total := Z.of_nat (length (tasks s)) in
  let ncompleted := Z.of_nat (length (List.filter (fun t => truthy (completed t)) (tasks s))) in
  (total, total - ncompleted, ncompleted).

(** The parts of a list item [render] builds: its class, the
    substitutions of its [innerHTML] template in order (the id in the
    checkbox [onclick], the escaped text, the date, the ids in the edit
    and delete [onclick]s). *)
Record item := mkItem {
  item_class : jstr;
  toggle_arg : jstr;
  item_text : jstr;
  item_meta : jstr;
  edit_arg : jstr;
  delete_arg : jstr
}.

Definition render_item (t : Task) : except item :=
  a1 ← to_str (id t);
  x ← escapeHtml (text t);
  let m := getFormattedDate (createdAt t) in
  a2 ← to_str (id t);
  a3 ← to_str (id t);
  Ok (mkItem (js "task-item " ++ (if truthy (completed t) then js "completed" else [])) a1 x m a2 a3).

(** What [render()] shows: whether the empty state is shown, the list
    items and the statistics.  An exception thrown while building an item
    escapes [render] (the statistics are then not updated). *)
Record view := mkView {
  empty_shown : bool;
  items : list item;
  stats : Z * Z * Z
}.

Definition render (s : TodoApp) : except view :=
  let filteredTasks := getFilteredTasks s in
  its ← emap render_item filteredTasks;
  Ok (mkView (bool_decide (length filteredTasks = 0%nat)) its (updateStats s)).

(** [addTask()], with the readings of [Date.now()] and [new Date()]:
    after the task is appended and saved, [this.render()] runs, and an
    exception it throws escapes [addTask]. *)
Definition addTask (s : TodoApp) (now_id now_date : Z) : TodoApp * except retval :=
  let x := trim (taskInput s) in
  if bool_decide (x = []) then (alert s msg_empty, Ok RUndefined)
  else if 100 <? Z.of_nat (length x) then (alert s msg_too_long, Ok RUndefined)
  else
    let task := new_Task (JNumber (num_of_Z now_id)) (JString x) JUndefined (Some now_date) in
    let s' := saveTasks (with_input (with_tasks s (tasks s ++ [task])) []) in
    (s', _ ← render s'; Ok RUndefined).

(** The events the user can trigger.  [OpAdd] types [input] in the task
    field and clicks the add button, with the clock readings of that
    call; [OpEdit] saves the edit modal. *)
Inductive op :=
| OpAdd (input : jstr) (now_id now_date : Z)
| OpDelete (i : jsval) (confirmed : bool)
| OpToggle (i : jsval)
| OpEdit (i : jsval) (newText : jstr)
| OpClearCompleted (confirmed : bool)
| OpClearAll (confirmed : bool)
| OpSetFilter (f : jsval).

Definition step (s : TodoApp) (o : op) : TodoApp :=
  match o with
  | OpAdd x t1 t2 => fst (addTask (with_input s x) t1 t2)
  | OpDelete i c => deleteTask s i c
  | OpToggle i => toggleTask s i
  | OpEdit i x => saveEdit s i x
  | OpClearCompleted c => clearCompleted s c
  | OpClearAll c => clearAll s c
  | OpSetFilter f => setFilter s f
  end.

Definition run (s : TodoApp) (ops : list op) : TodoApp := fold_left step ops s.


(** The readings of [Date.now()] the additions of a run make. *)
Definition add_clock (ops : list op) : list Z :=
  omap (fun o => match o with OpAdd _ t _ => Some t | _ => None end) ops.

End TodoApp.


(* ================================================================== *)
(** * Properties *)

(** An application with no task, no alert and nothing stored. *)
Definition app0 : TodoApp := mkApp [] (JString (js "all")) JNull [] [] None [].

(** Ids drawn from the clock readings [rs]. *)
Definition id_from (rs : list Z) (t : Task) : Prop :=
  exists z, id t = JNumber (num_of_Z z) /\ z ∈ rs.

(** No two tasks share an id, and every id is one of the readings [rs]. *)
Definition ids_inv (rs : list Z) (ts : list Task) : Prop :=
  NoDup (map id ts) /\ Forall (id_from rs) ts.

(** A task as [addTask] makes it and the edits keep it: an integer id
    (a [Date.now()] reading) printed without exponent, a string text, a
    boolean [completed] and a valid date. *)
Definition wf_task (t : Task) : Prop :=
  (exists z, id t = JNumber (num_of_Z z) /\ Z.abs z < 10 ^ 21) /\
  (exists x, text t = JString x /\ Forall code_unit x) /\
  (exists b, completed t = JBool b) /\
  (exists tv, createdAt t = Some tv /\ Z.abs tv <= 8640000000000000).

(** An array element as [JSON.stringify] writes it. *)
Definition ser_elem (v : jsval) : jstr := match ser v with Some y => y | None => js "null" end.

(** The calendar facts of one day of a 400-year era, checked on every
    day of the era by [doe_check]. *)
Definition doe_ok (doe : Z) : bool :=
  let '(yoe, m, d) := civil_of_doe doe in
  (0 <=? yoe) && (yoe <=? 399) && (1 <=? m) && (m <=? 12) && (1 <=? d) &&
  (d <=? days_in_month (yoe + (if m <=? 2 then 1 else 0)) m) && (doe_of_civil yoe m d =? doe).

Fixpoint doe_check (n : nat) (z : Z) : bool :=
  match n with O => true | S k => doe_ok z && doe_check k (z + 1) end.

(** An application holding one task, added at 2023-11-14T22:13:20.000Z. *)
Definition app1 : TodoApp :=
  mkApp [mkTask (JNumber (num_of_Z 1700000000000)) (JString (js "Buy milk")) (JBool false)
           (Some 1700000000000)]
        (JString (js "all")) JNull [] [] None [].

(** The stored string is the serialization of the current tasks. *)
Definition in_sync (s : TodoApp) : Prop := storage (saveTasks s) = storage s.

(** An operation whose inputs are strings of code units and whose clock
    readings are what [Date.now()] and [new Date()] give: an integer
    printed without exponent and a valid time value. *)
Definition op_ok (o : op) : Prop :=
  match o with
  | OpAdd x t1 t2 => Forall code_unit x /\ Z.abs t1 < 10 ^ 21 /\ Z.abs t2 <= 8640000000000000
  | OpEdit _ x => Forall code_unit x
  | _ => True
  end.

(** As [wf_task], but the date may also be an Invalid Date. *)
Definition wf_task0 (t : Task) : Prop :=
  (exists z, id t = JNumber (num_of_Z z) /\ Z.abs z < 10 ^ 21) /\
  (exists x, text t = JString x /\ Forall code_unit x) /\
  (exists b, completed t = JBool b) /\
  (createdAt t = None \/ exists tv, createdAt t = Some tv /\ Z.abs tv <= 8640000000000000).

(** A task as it comes back from storage: an Invalid Date is stored as
    [null], and [new Date(null)] is the epoch. *)
Definition reload_task (t : Task) : Task :=
  match createdAt t with
  | None => mkTask (id t) (text t) (completed t) (Some 0)
  | Some _ => t
  end.

(** A text as [addTask] and [saveEdit] store it: a non-empty string with
    no white space at either end. *)
Definition text_ok (t : Task) : Prop :=
  exists x, text t = JString x /\ x <> [] /\ trim x = x.

(** What a list item shows for a task. *)
Definition item_of (fd : time_value -> jstr) (t : Task) (it : item) : Prop :=
  item_class it = js "task-item " ++ (if truthy (completed t) then js "completed" else []) /\
  (exists x, text t = JString x /\ item_text it = escape_text x) /\
  item_meta it = fd (createdAt t) /\
  forall a, a ∈ [toggle_arg it; edit_arg it; delete_arg it] ->
    forall rest, exists n, id t = JNumber n /\ p_number (a ++ 41 :: rest) = Some (n, 41 :: rest).

(** The task of [app1], and an application holding a task whose date is
    an Invalid Date. *)
Definition task1 : Task :=
  mkTask (JNumber (num_of_Z 1700000000000)) (JString (js "Buy milk")) (JBool false) (Some 1700000000000).
Definition app_invalid : TodoApp :=
  mkApp [mkTask (JNumber (num_of_Z 1)) (JString (js "Old")) (JBool true) None]
        (JString (js "all")) JNull [] [] None [].

(** Three tasks, the first one completed, and an application holding
    them. *)
Definition task_a : Task :=
  mkTask (JNumber (num_of_Z 1)) (JString (js "Buy milk")) (JBool true) (Some 1700000000000).
Definition task_b : Task :=
  mkTask (JNumber (num_of_Z 2)) (JString (js "Walk the dog")) (JBool false) (Some 1700000000001).
Definition task_c : Task :=
  mkTask (JNumber (num_of_Z 3)) (JString (js "Read")) (JBool false) (Some 1700000000002).
Definition app2 : TodoApp :=
  mkApp [task_a; task_b; task_c] (JString (js "all")) JNull [] [] None [].

(** A JSON text written with single quotes in place of double quotes. *)
Definition jq (s : string) : jstr := map (fun c => if c =? 39 then 34 else c) (js s).

(** A [getFormattedDate()] result. *)
Definition fd0 (d : time_value) : jstr := js "Nov 14, 10:13 PM".

(** The application after loading a stored task whose text is the
    object {"toString":1}. *)
Definition app_obj_text : TodoApp :=
  new_TodoApp (fun _ => None)
    (Some (jq "[{'id':1,'text':{'toString':1},'completed':false,'createdAt':'2023-11-14T22:13:20.000Z'}]")).

Ltac app_simpl :=
  cbn [tasks currentFilter editingId taskInput alerts storage console_errors
       saveTasks with_tasks with_filter with_editing with_input with_storage
       alert log_error closeEditModal setFilter fst snd set_completed set_text] in *.

(** ** The first task with an id *)

Lemma find_task_first (ts : list Task) (i : jsval) (k : nat) (t : Task) :
  ts !! k = Some t -> strict_eq (id t) i = true ->
  (forall (j : nat) t', (j < k)%nat -> ts !! j = Some t' -> strict_eq (id t') i = false) ->
  find_task ts i = Some (k, t).
Proof.
  intros Hk Ht Hb. unfold find_task. apply list_find_Some. split_and!; auto.
  intros j y Hj Hlt Hy. rewrite (Hb j y) in Hy by auto. discriminate.
Qed.

Lemma find_task_Some (ts : list Task) (i : jsval) (k : nat) (t : Task) :
  find_task ts i = Some (k, t) ->
  ts !! k = Some t /\ strict_eq (id t) i = true /\
  (forall (j : nat) t', (j < k)%nat -> ts !! j = Some t' -> strict_eq (id t') i = false).
Proof.
  intros H. apply list_find_Some in H as (Hk & Ht & Hb). split_and!; auto.
  intros j y Hlt Hy. destruct (strict_eq (id y) i) eqn:E; auto.
  exfalso. eapply Hb; eauto.
Qed.

Lemma find_task_None (ts : list Task) (i : jsval) :
  (forall t, t ∈ ts -> strict_eq (id t) i = false) -> find_task ts i = None.
Proof.
  intros H. apply list_find_None, Forall_forall. intros x Hx. rewrite H by auto. discriminate.
Qed.

Lemma find_task_insert (ts : list Task) (i : jsval) (k : nat) (t t' : Task) :
  find_task ts i = Some (k, t) -> id t' = id t ->
  find_task (<[k := t']> ts) i = Some (k, t').
Proof.
  intros H Hid. apply find_task_Some in H as (Hk & Ht & Hb). apply find_task_first.
  - apply list_lookup_insert_eq. eapply lookup_lt_Some; eauto.
  - rewrite Hid; auto.
  - intros j y Hlt Hy. rewrite list_lookup_insert_ne in Hy by lia. eauto.
Qed.

(** ** Numbers made from integers *)

Lemma strip_zeros_spec (f : nat) (m e : Z) :
  0 <= e ->
  0 <= (strip_zeros f m e).2 /\ (strip_zeros f m e).1 * 10 ^ (strip_zeros f m e).2 = m * 10 ^ e.
Proof.
  revert m e. induction f as [|f IH]; intros m e He; simpl; [lia|].
  destruct (m mod 10 =? 0) eqn:E; simpl; [|lia].
  apply Z.eqb_eq in E. destruct (IH (m / 10) (e + 1)) as [A B]; [lia|].
  split; [lia|]. rewrite B, Z.pow_add_r by lia.
  assert (Hm : m = 10 * (m / 10)) by (apply Z_div_exact_full_2; lia).
  rewrite Hm at 2. change (10 ^ 1) with 10. lia.
Qed.

Lemma int_value_num_of_Z (z : Z) : int_value (num_of_Z z) = Some z.
Proof.
  unfold num_of_Z, mk_number. destruct (z =? 0) eqn:E.
  - apply Z.eqb_eq in E. subst. reflexivity.
  - pose proof (strip_zeros_spec (S (Z.to_nat (Z.log2 (Z.abs z)))) z 0 ltac:(lia)) as [A B].
    destruct (strip_zeros _ z 0) as [m' e']. simpl in *.
    destruct (0 <=? e') eqn:E'; [|apply Z.leb_nle in E'; lia].
    f_equal. lia.
Qed.

Lemma num_of_Z_inj (z1 z2 : Z) : num_of_Z z1 = num_of_Z z2 -> z1 = z2.
Proof.
  intros H. pose proof (int_value_num_of_Z z1) as A. rewrite H, int_value_num_of_Z in A.
  congruence.
Qed.

Lemma List_filter_elem_of (p : Task -> bool) (l : list Task) (t : Task) :
  t ∈ List.filter p l -> t ∈ l.
Proof. rewrite !list_elem_of_In, filter_In. tauto. Qed.

Global Instance jsval_eq_JBool_dec (v : jsval) (b : bool) : Decision (v = JBool b).
Proof.
  destruct v; try (right; discriminate).
  destruct (decide (b0 = b)); [left; congruence | right; congruence].
Defined.

(** [List.filter] on truthiness agrees with selecting a boolean value
    when every [completed] field holds a boolean. *)
Lemma filter_truthy_bool (l : list Task) (b : bool) :
  Forall (fun t => exists b', completed t = JBool b') l ->
  List.filter (fun t => Bool.eqb (truthy (completed t)) b) l =
  filter (fun t => completed t = JBool b) l.
Proof.
  induction 1 as [|t l [b' Hb'] _ IH]; [reflexivity|].
  rewrite filter_cons. cbn [List.filter]. rewrite Hb', IH.
  destruct b, b'; cbn [truthy Bool.eqb];
    first [rewrite decide_True by reflexivity | rewrite decide_False by discriminate]; reflexivity.
Qed.

(** ** C2: validation of [addTask] *)

(** C2. [addTask] raises ValidationError(empty) (the alert "Please
    enter a task!") exactly when the trimmed input is empty, and
    ValidationError(tooLong) (the alert "Task is too long! ...")
    exactly when the trimmed input is non-empty and longer than 100
    code units; on either error the application state is unchanged
    apart from the alert, so the task collection and the storage are
    unchanged; otherwise no alert is raised. *)
Theorem addTask_validation (fd : time_value -> jstr) (s : TodoApp) (now_id now_date : Z) :
  (trim (taskInput s) = [] ->
     addTask fd s now_id now_date = (alert s msg_empty, Ok RUndefined) /\
     tasks (fst (addTask fd s now_id now_date)) = tasks s /\
     storage (fst (addTask fd s now_id now_date)) = storage s) /\
  (trim (taskInput s) <> [] -> 100 < Z.of_nat (length (trim (taskInput s))) ->
     addTask fd s now_id now_date = (alert s msg_too_long, Ok RUndefined) /\
     tasks (fst (addTask fd s now_id now_date)) = tasks s /\
     storage (fst (addTask fd s now_id now_date)) = storage s) /\
  (trim (taskInput s) <> [] -> Z.of_nat (length (trim (taskInput s))) <= 100 ->
     alerts (fst (addTask fd s now_id now_date)) = alerts s).
Proof.
  unfold addTask. split_and!.
  - intros E. rewrite E. simpl. auto.
  - intros E L. rewrite bool_decide_false by auto.
    destruct (100 <? _) eqn:F; [|apply Z.ltb_nlt in F; lia]. auto.
  - intros E L. rewrite bool_decide_false by auto.
    destruct (100 <? _) eqn:F; [apply Z.ltb_lt in F; lia|]. reflexivity.
Qed.

(** ** C5: filtering *)

(** C5.  After [setFilter(f)], when every task's [completed] field is a
    boolean (as the data model has it), [getFilteredTasks] returns,
    in the order of the collection, the tasks with [completed] false
    for ['active'], those with [completed] true for ['completed'], and
    the whole collection for ['all'] and for every other value. *)
Theorem getFilteredTasks_spec (s : TodoApp) (f : jsval) :
  Forall (fun t => exists b, completed t = JBool b) (tasks s) ->
  (f = JString (js "active") ->
     getFilteredTasks (setFilter s f) = filter (fun t => completed t = JBool false) (tasks s)) /\
  (f = JString (js "completed") ->
     getFilteredTasks (setFilter s f) = filter (fun t => completed t = JBool true) (tasks s)) /\
  (f = JString (js "all") -> getFilteredTasks (setFilter s f) = tasks s) /\
  (f <> JString (js "active") -> f <> JString (js "completed") ->
     getFilteredTasks (setFilter s f) = tasks s).
Proof.
  intros Hwf. unfold getFilteredTasks. app_simpl. split_and!.
  - intros ->. rewrite bool_decide_true by reflexivity.
    rewrite <- filter_truthy_bool by exact Hwf.
    apply List.filter_ext. intros t. destruct (truthy (completed t)); reflexivity.
  - intros ->. rewrite bool_decide_false by (vm_compute; discriminate).
    rewrite bool_decide_true by reflexivity.
    rewrite <- filter_truthy_bool by exact Hwf.
    apply List.filter_ext. intros t. destruct (truthy (completed t)); reflexivity.
  - intros ->. reflexivity.
  - intros Ha Hc. destruct f; auto.
    rewrite bool_decide_false by congruence. rewrite bool_decide_false by congruence. reflexivity.
Qed.

Lemma getFilteredTasks_spec_witness :
  Forall (fun t => exists b, completed t = JBool b) (tasks app2) /\
  getFilteredTasks (setFilter app2 (JString (js "active"))) = [task_b; task_c] /\
  getFilteredTasks (setFilter app2 (JString (js "completed"))) = [task_a] /\
  getFilteredTasks (setFilter app2 (JString (js "all"))) = [task_a; task_b; task_c] /\
  getFilteredTasks (setFilter app2 (JString (js "Active"))) = [task_a; task_b; task_c].
Proof.
  assert (H : Forall (fun t => exists b, completed t = JBool b) (tasks app2)).
  { repeat constructor; eexists; reflexivity. }
  destruct (getFilteredTasks_spec app2 (JString (js "active")) H) as [A _].
  destruct (getFilteredTasks_spec app2 (JString (js "completed")) H) as [_ [C _]].
  destruct (getFilteredTasks_spec app2 (JString (js "all")) H) as [_ [_ [L _]]].
  destruct (getFilteredTasks_spec app2 (JString (js "Active")) H) as [_ [_ [_ O]]].
  split_and!.
  - exact H.
  - rewrite (A eq_refl). vm_compute. reflexivity.
  - rewrite (C eq_refl). vm_compute. reflexivity.
  - rewrite (L eq_refl). reflexivity.
  - rewrite O by (intros E; vm_compute in E; discriminate). reflexivity.
Defined.

(** ** C6: editing *)

(** C6.  [saveEdit(id, newText)] trims its input.  When the trimmed
    text is empty it raises ValidationError(empty) (the alert "Task
    cannot be empty!") and changes nothing else.  Otherwise it raises
    nothing, whatever the length of the text: the first task with that
    id gets the trimmed text as its [text], nothing else in the
    collection changes, and with no task of that id the state is
    unchanged. *)
Theorem saveEdit_spec (s : TodoApp) (i : jsval) (newText : jstr) :
  (trim newText = [] -> saveEdit s i newText = alert s msg_edit_empty) /\
  (trim newText <> [] ->
     alerts (saveEdit s i newText) = alerts s /\
     (forall (k : nat) (t : Task), tasks s !! k = Some t -> strict_eq (id t) i = true ->
        (forall (j : nat) t', (j < k)%nat -> tasks s !! j = Some t' -> strict_eq (id t') i = false) ->
        tasks (saveEdit s i newText) = <[k := set_text t (JString (trim newText))]> (tasks s)) /\
     ((forall t, t ∈ tasks s -> strict_eq (id t) i = false) -> saveEdit s i newText = s)).
Proof.
  unfold saveEdit. split.
  - intros E. rewrite E. reflexivity.
  - intros E. rewrite bool_decide_false by auto. split_and!.
    + destruct (find_task (tasks s) i) as [[k t]|]; reflexivity.
    + intros k t Hk Ht Hb. rewrite (find_task_first _ _ _ _ Hk Ht Hb). reflexivity.
    + intros H. rewrite find_task_None by exact H. reflexivity.
Qed.

(** ** C7: toggling twice *)

Lemma set_completed_id (t : Task) (c : jsval) : id (set_completed t c) = id t.
Proof. reflexivity. Qed.

(** C7.  When the tasks' [completed] fields are booleans, toggling the
    same id twice gives back the collection it started from (for an id
    of no task both toggles do nothing). *)
Theorem toggleTask_twice (s : TodoApp) (i : jsval) :
  Forall (fun t => exists b, completed t = JBool b) (tasks s) ->
  tasks (toggleTask (toggleTask s i) i) = tasks s.
Proof.
  intros Hwf. unfold toggleTask at 2.
  destruct (find_task (tasks s) i) as [[k t]|] eqn:E.
  - unfold toggleTask. app_simpl.
    rewrite (find_task_insert _ _ _ _ _ E (set_completed_id _ _)).
    app_simpl. rewrite list_insert_insert_eq.
    apply find_task_Some in E as (Hk & _ & _).
    destruct (proj1 (Forall_lookup _ _) Hwf k t Hk) as [b Hb].
    apply list_insert_id. rewrite Hk. f_equal.
    destruct t as [ti tx tc td]. simpl in *. subst. destruct b; reflexivity.
  - unfold toggleTask. rewrite E. reflexivity.
Qed.

Lemma toggleTask_twice_witness :
  Forall (fun t => exists b, completed t = JBool b) (tasks app2) /\
  tasks (toggleTask app2 (JNumber (num_of_Z 2))) <> tasks app2 /\
  tasks (toggleTask (toggleTask app2 (JNumber (num_of_Z 2))) (JNumber (num_of_Z 2))) = tasks app2.
Proof.
  assert (H : Forall (fun t => exists b, completed t = JBool b) (tasks app2)).
  { repeat constructor; eexists; reflexivity. }
  split_and!; [exact H | vm_compute; discriminate |].
  exact (toggleTask_twice _ _ H).
Defined.

(** ** C10: what a toggle changes *)

(** C10.  When the first task with id [i] is at position [k],
    [toggleTask(i)] replaces it by a task with the same [id], [text]
    and [createdAt] and the negated [completed]; every other position
    keeps its task, the length is unchanged, and the current filter,
    the editing id, the task input and the alerts are unchanged. *)
Theorem toggleTask_frame (s : TodoApp) (i : jsval) (k : nat) (t : Task) :
  tasks s !! k = Some t -> strict_eq (id t) i = true ->
  (forall (j : nat) t', (j < k)%nat -> tasks s !! j = Some t' -> strict_eq (id t') i = false) ->
  exists t',
    tasks (toggleTask s i) = <[k := t']> (tasks s) /\
    tasks (toggleTask s i) !! k = Some t' /\
    (forall j : nat, j <> k -> tasks (toggleTask s i) !! j = tasks s !! j) /\
    length (tasks (toggleTask s i)) = length (tasks s) /\
    id t' = id t /\ text t' = text t /\ createdAt t' = createdAt t /\
    completed t' = JBool (negb (truthy (completed t))) /\
    currentFilter (toggleTask s i) = currentFilter s /\
    editingId (toggleTask s i) = editingId s /\
    taskInput (toggleTask s i) = taskInput s /\
    alerts (toggleTask s i) = alerts s.
Proof.
  intros Hk Ht Hb. unfold toggleTask. rewrite (find_task_first _ _ _ _ Hk Ht Hb).
  app_simpl. eexists. split_and!; try reflexivity.
  - apply list_lookup_insert_eq. eapply lookup_lt_Some; eauto.
  - intros j Hj. apply list_lookup_insert_ne. auto.
  - apply length_insert.
Qed.

Lemma toggleTask_frame_witness :
  (tasks app2 !! 1%nat = Some task_b /\
   strict_eq (id task_b) (JNumber (num_of_Z 2)) = true /\
   (forall (j : nat) t', (j < 1)%nat -> tasks app2 !! j = Some t' ->
      strict_eq (id t') (JNumber (num_of_Z 2)) = false)) /\
  exists t',
    tasks (toggleTask app2 (JNumber (num_of_Z 2))) = [task_a; t'; task_c] /\
    id t' = id task_b /\ text t' = text task_b /\ completed t' = JBool true.
Proof.
  assert (H1 : tasks app2 !! 1%nat = Some task_b) by reflexivity.
  assert (H2 : strict_eq (id task_b) (JNumber (num_of_Z 2)) = true) by reflexivity.
  assert (H3 : forall (j : nat) t', (j < 1)%nat -> tasks app2 !! j = Some t' ->
                 strict_eq (id t') (JNumber (num_of_Z 2)) = false).
  { intros j t' Hj E. destruct j as [|j]; [|lia]. injection E as <-. reflexivity. }
  split; [split_and!; assumption|].
  destruct (toggleTask_frame app2 (JNumber (num_of_Z 2)) 1 _ H1 H2 H3)
    as (t' & E & _ & _ & _ & I & X & _ & C & _).
  exists t'. split_and!; [rewrite E; reflexivity | exact I | exact X | rewrite C; reflexivity].
Defined.

(** ** C9: uniqueness of ids *)

Lemma NoDup_map_List_filter (p : Task -> bool) (l : list Task) :
  NoDup (map id l) -> NoDup (map id (List.filter p l)).
Proof.
  induction l as [|t l IH]; simpl; [auto|]. intros H. apply NoDup_cons in H as [Hn Hd].
  destruct (p t); simpl; [|auto]. apply NoDup_cons. split; [|auto].
  intros Hin. apply Hn. apply list_elem_of_In in Hin. apply list_elem_of_In.
  apply in_map_iff in Hin as (t' & E & Ht'). apply filter_In in Ht' as [Ht' _].
  apply in_map_iff. eauto.
Qed.

Lemma Forall_List_filter (P : Task -> Prop) (p : Task -> bool) (l : list Task) :
  Forall P l -> Forall P (List.filter p l).
Proof.
  intros H. apply Forall_forall. intros x Hx. apply List_filter_elem_of in Hx.
  eapply Forall_forall; eauto.
Qed.

Lemma map_insert_same (f : Task -> jsval) (l : list Task) (k : nat) (t t' : Task) :
  l !! k = Some t -> f t' = f t -> map f (<[k := t']> l) = map f l.
Proof.
  revert k. induction l as [|x l IH]; intros [|k] Hk Hf; simpl in *; try discriminate.
  - injection Hk as ->. rewrite Hf. reflexivity.
  - f_equal. auto.
Qed.

Lemma ids_inv_weaken (rs rs' : list Z) (ts : list Task) :
  (forall z, z ∈ rs -> z ∈ rs') -> ids_inv rs ts -> ids_inv rs' ts.
Proof.
  intros Hsub [Hd Hf]. split; [exact Hd|]. eapply Forall_impl; [exact Hf|].
  intros t (z & E & Hz). exists z. auto.
Qed.

Lemma ids_inv_filter (rs : list Z) (p : Task -> bool) (ts : list Task) :
  ids_inv rs ts -> ids_inv rs (List.filter p ts).
Proof. intros [Hd Hf]. split; [apply NoDup_map_List_filter | apply Forall_List_filter]; auto. Qed.

Lemma ids_inv_insert (rs : list Z) (ts : list Task) (k : nat) (t t' : Task) :
  ts !! k = Some t -> id t' = id t -> ids_inv rs ts -> ids_inv rs (<[k := t']> ts).
Proof.
  intros Hk Hid [Hd Hf]. split.
  - rewrite (map_insert_same id ts k t t' Hk Hid). exact Hd.
  - apply Forall_insert; [exact Hf|]. destruct (proj1 (Forall_lookup _ _) Hf k t Hk) as (z & E & Hz).
    exists z. rewrite Hid. auto.
Qed.

Lemma ids_inv_toggle (rs : list Z) (s : TodoApp) (i : jsval) :
  ids_inv rs (tasks s) -> ids_inv rs (tasks (toggleTask s i)).
Proof.
  intros H. unfold toggleTask. destruct (find_task (tasks s) i) as [[k t]|] eqn:E; [|exact H].
  apply find_task_Some in E as (Hk & _ & _). app_simpl. eapply ids_inv_insert; eauto.
Qed.

Lemma ids_inv_edit (rs : list Z) (s : TodoApp) (i : jsval) (x : jstr) :
  ids_inv rs (tasks s) -> ids_inv rs (tasks (saveEdit s i x)).
Proof.
  intros H. unfold saveEdit. destruct (bool_decide _); [exact H|].
  destruct (find_task (tasks s) i) as [[k t]|] eqn:E; [|exact H].
  apply find_task_Some in E as (Hk & _ & _). app_simpl. eapply ids_inv_insert; eauto.
Qed.

Lemma ids_inv_add (fd : time_value -> jstr) (rs : list Z) (s : TodoApp) (x : jstr) (t1 t2 : Z) :
  t1 ∉ rs -> ids_inv rs (tasks s) ->
  ids_inv (rs ++ [t1]) (tasks (fst (addTask fd (with_input s x) t1 t2))).
Proof.
  intros Hnew H. assert (Hw : ids_inv (rs ++ [t1]) (tasks s)).
  { eapply ids_inv_weaken; [|exact H]. intros z Hz. apply elem_of_app. auto. }
  unfold addTask. app_simpl. destruct (bool_decide _); [exact Hw|].
  destruct (100 <? _); [exact Hw|]. app_simpl. destruct H as [Hd Hf]. split.
  - rewrite map_app. apply NoDup_app. split_and!; [exact Hd| |apply NoDup_singleton].
    intros v Hv Hv'. apply list_elem_of_singleton in Hv'. subst v.
    apply list_elem_of_In, in_map_iff in Hv as (t & E & Ht). apply list_elem_of_In in Ht.
    destruct (proj1 (Forall_forall _ _) Hf t Ht) as (z & Ez & Hz).
    rewrite Ez in E. injection E as E. apply num_of_Z_inj in E. subst. contradiction.
  - apply Forall_app. split; [exact (proj2 Hw)|]. constructor; [|constructor].
    exists t1. split; [reflexivity|]. apply elem_of_app. right. apply list_elem_of_singleton. reflexivity.
Qed.

Lemma ids_inv_step (fd : time_value -> jstr) (rs : list Z) (s : TodoApp) (o : op) :
  NoDup (rs ++ add_clock [o]) -> ids_inv rs (tasks s) ->
  ids_inv (rs ++ add_clock [o]) (tasks (step fd s o)).
Proof.
  intros Hnd H. destruct o as [x t1 t2|i c|i|i x|c|c|f]; simpl in *; rewrite ?app_nil_r.
  - apply ids_inv_add; [|exact H]. apply NoDup_app in Hnd as (_ & Hn & _).
    intros Hin. apply (Hn t1 Hin). left.
  - unfold deleteTask. destruct c; [|exact H]. app_simpl. apply ids_inv_filter. exact H.
  - apply ids_inv_toggle. exact H.
  - apply ids_inv_edit. exact H.
  - unfold clearCompleted. destruct c; [|exact H]. app_simpl. apply ids_inv_filter. exact H.
  - unfold clearAll. destruct c; [|exact H]. app_simpl. split; constructor.
  - exact H.
Qed.

Lemma ids_inv_run (fd : time_value -> jstr) (ops : list op) :
  forall (rs : list Z) (s : TodoApp),
  NoDup (rs ++ add_clock ops) -> ids_inv rs (tasks s) ->
  ids_inv (rs ++ add_clock ops) (tasks (run fd s ops)).
Proof.
  induction ops as [|o ops IH]; intros rs s Hnd H.
  - simpl. rewrite app_nil_r. exact H.
  - unfold run. simpl fold_left. fold (run fd (step fd s o) ops).
    assert (Hc : add_clock (o :: ops) = add_clock [o] ++ add_clock ops)
      by (destruct o; reflexivity).
    rewrite Hc, app_assoc in *. apply IH; [exact Hnd|].
    apply ids_inv_step; [|exact H]. apply NoDup_app in Hnd as (Hnd & _ & _). exact Hnd.
Qed.

(** C9, as the code has it.  Ids come from [Date.now()]: starting from
    an empty collection, if no two additions read the same clock value,
    no two tasks ever share an id. *)
Theorem ids_unique_distinct_clock (fd : time_value -> jstr) (s : TodoApp) (ops : list op) :
  tasks s = [] -> NoDup (add_clock ops) -> NoDup (map id (tasks (run fd s ops))).
Proof.
  intros E Hnd. apply (ids_inv_run fd ops [] s Hnd). rewrite E. split; constructor.
Qed.

Lemma ids_unique_distinct_clock_witness :
  (tasks app0 = [] /\ NoDup (add_clock [OpAdd (js "A") 5 5; OpAdd (js "B") 6 6])) /\
  NoDup (map id (tasks (run fd0 app0 [OpAdd (js "A") 5 5; OpAdd (js "B") 6 6]))).
Proof.
  assert (H1 : tasks app0 = []) by reflexivity.
  assert (H2 : NoDup (add_clock [OpAdd (js "A") 5 5; OpAdd (js "B") 6 6])).
  { simpl. apply NoDup_cons. split; [|apply NoDup_singleton].
    intros H. apply list_elem_of_singleton in H. discriminate. }
  split; [split; assumption|]. exact (ids_unique_distinct_clock _ _ _ H1 H2).
Defined.

(** C9 fails as stated: two additions within the same millisecond give
    two tasks with the same id. *)
Lemma duplicate_ids_same_tick :
  ~ NoDup (map id (tasks (run fd0 app0 [OpAdd (js "A") 5 5; OpAdd (js "B") 5 5]))).
Proof.
  assert (E : map id (tasks (run fd0 app0 [OpAdd (js "A") 5 5; OpAdd (js "B") 5 5])) =
              [JNumber (num_of_Z 5); JNumber (num_of_Z 5)]) by (vm_compute; reflexivity).
  rewrite E. intros H. apply NoDup_cons in H as [H _]. apply H. left.
Qed.

(** ** C4: loading a stored value *)

Lemma emap_elem_Throw {A B} (f : A -> except B) (l : list A) (x : A) (e : js_error) :
  x ∈ l -> f x = Throw e -> exists e', emap f l = Throw e'.
Proof.
  intros Hx Hf. induction l as [|y l IH]; [inversion Hx|].
  apply elem_of_cons in Hx as [->|Hx].
  - exists e. simpl. rewrite Hf. reflexivity.
  - simpl. destruct (f y) as [b|e']; [|exists e'; reflexivity].
    destruct (IH Hx) as [e'' E]. exists e''. simpl. rewrite E. reflexivity.
Qed.

Lemma JSON_parse_nil : JSON_parse [] = Throw SyntaxError.
Proof. reflexivity. Qed.

(** C4, as the code has it.  [loadTasks] never lets an error escape.
    With the key absent or holding the empty string the collection
    stays empty and nothing is logged; a stored value that is not JSON
    (such as [{not valid json]) logs its SyntaxError and leaves the
    collection empty; a value that parses to a non-array logs a
    TypeError and leaves it empty.  An array is mapped element by
    element: when every element converts, the collection is the list of
    converted elements and nothing is logged; when one throws, its error
    is logged and the collection is empty.  An element throws exactly
    when it is [null] (or [undefined]) or when [new Date] throws on its
    [createdAt], which can only happen for an object or an array (such
    as {"toString":1}); every other element becomes a task from its
    [id], [text] and [completed] properties with no check of their
    values.  In every case either nothing is logged or exactly one error
    is logged and the collection is empty. *)
Theorem new_TodoApp_load (fb : jstr -> option Z) (st : option jstr) :
  (st = None \/ st = Some [] ->
     tasks (new_TodoApp fb st) = [] /\ console_errors (new_TodoApp fb st) = []) /\
  (forall x e, st = Some x -> x <> [] -> JSON_parse x = Throw e ->
     tasks (new_TodoApp fb st) = [] /\ console_errors (new_TodoApp fb st) = [e]) /\
  (forall x v, st = Some x -> JSON_parse x = Ok v -> (forall l, v <> JArray l) ->
     tasks (new_TodoApp fb st) = [] /\ console_errors (new_TodoApp fb st) = [TypeError]) /\
  (forall x l, st = Some x -> JSON_parse x = Ok (JArray l) -> JNull ∈ l ->
     tasks (new_TodoApp fb st) = [] /\ length (console_errors (new_TodoApp fb st)) = 1%nat) /\
  (tasks (new_TodoApp fb (Some (js "{not valid json"))) = [] /\
   console_errors (new_TodoApp fb (Some (js "{not valid json"))) = [SyntaxError]) /\
  (forall x l, st = Some x -> JSON_parse x = Ok (JArray l) ->
     (forall ts, emap (task_of_json fb) l = Ok ts ->
        tasks (new_TodoApp fb st) = ts /\ console_errors (new_TodoApp fb st) = []) /\
     (forall e, emap (task_of_json fb) l = Throw e ->
        tasks (new_TodoApp fb st) = [] /\ console_errors (new_TodoApp fb st) = [e])) /\
  (forall t e, task_of_json fb t = Throw e ->
     t = JUndefined \/ t = JNull \/
     exists ps, t = JObject ps /\ new_Date fb (prop_lookup (js "createdAt") ps) = Throw e) /\
  (forall ps e, new_Date fb (prop_lookup (js "createdAt") ps) = Throw e ->
     task_of_json fb (JObject ps) = Throw e) /\
  (forall v e, new_Date fb v = Throw e -> (exists ws, v = JArray ws) \/ (exists ps, v = JObject ps)) /\
  (forall t, t <> JUndefined -> t <> JNull ->
     (forall ca, get_prop t (js "createdAt") = Ok ca -> (forall ws, ca <> JArray ws) /\ (forall ps, ca <> JObject ps)) ->
     exists i x c d, get_prop t (js "id") = Ok i /\ get_prop t (js "text") = Ok x /\
       get_prop t (js "completed") = Ok c /\ task_of_json fb t = Ok (new_Task i x c d)) /\
  (tasks (new_TodoApp fb (Some (jq "[{'id':1,'text':'A','completed':false,'createdAt':{'toString':1}}]"))) = [] /\
   console_errors (new_TodoApp fb (Some (jq "[{'id':1,'text':'A','completed':false,'createdAt':{'toString':1}}]"))) = [TypeError]) /\
  ((tasks (new_TodoApp fb st) = [] /\ length (console_errors (new_TodoApp fb st)) = 1%nat) \/
   console_errors (new_TodoApp fb st) = []).
Proof.
  split_and!.
  - unfold new_TodoApp, loadTasks. app_simpl. intros [->| ->]; split; reflexivity.
  - unfold new_TodoApp, loadTasks. app_simpl. intros x e -> Hne He. rewrite bool_decide_eq_false_2 by exact Hne.
    simpl. rewrite He. split; reflexivity.
  - unfold new_TodoApp, loadTasks. app_simpl. intros x v -> Hv Hna. destruct (decide (x = [])) as [->|Hne].
    { rewrite JSON_parse_nil in Hv. discriminate. }
    rewrite bool_decide_eq_false_2 by exact Hne. simpl. rewrite Hv. simpl.
    destruct v; try (split; reflexivity). exfalso. eapply Hna. reflexivity.
  - unfold new_TodoApp, loadTasks. app_simpl. intros x l -> Hv Hnull. destruct (decide (x = [])) as [->|Hne].
    { rewrite JSON_parse_nil in Hv. discriminate. }
    rewrite bool_decide_eq_false_2 by exact Hne. simpl. rewrite Hv. simpl.
    destruct (emap_elem_Throw (task_of_json fb) l JNull TypeError Hnull eq_refl) as [e E].
    rewrite E. split; reflexivity.
  - vm_compute. reflexivity.
  - vm_compute. reflexivity.
  - unfold new_TodoApp, loadTasks. app_simpl. intros x l -> Hv. destruct (decide (x = [])) as [->|Hne].
    { rewrite JSON_parse_nil in Hv. discriminate. }
    rewrite bool_decide_eq_false_2 by exact Hne. simpl. rewrite Hv. simpl.
    split; [intros ts E | intros e E]; rewrite E; split; reflexivity.
  - intros t e H. destruct t as [| |b|n|x|ws|ps]; try (left; reflexivity); try (right; left; reflexivity).
    all: try (unfold task_of_json in H; cbn [get_prop mbind except_bind new_Date] in H; discriminate).
    right; right. exists ps. split; [reflexivity|]. unfold task_of_json in H.
    cbn [get_prop mbind except_bind] in H.
    destruct (new_Date fb (prop_lookup (js "createdAt") ps));
      [discriminate|cbn [mbind except_bind] in H; congruence].
  - intros ps e H. unfold task_of_json. cbn [get_prop mbind except_bind]. rewrite H. reflexivity.
  - intros v e H. destruct v as [| |b|n|x|ws|ps]; try discriminate; eauto.
  - intros t Hu Hn Hca. unfold task_of_json.
    destruct t as [| |b|n|x|ws|ps]; try congruence;
      try (exists JUndefined, JUndefined, JUndefined, None; split_and!; reflexivity).
    specialize (Hca _ eq_refl) as [Ha Ho].
    cbn [get_prop mbind except_bind].
    destruct (prop_lookup (js "createdAt") ps) as [| |b|n|x|ws|qs] eqn:E;
      try (exfalso; eapply Ha; reflexivity); try (exfalso; eapply Ho; reflexivity);
      eexists _, _, _, _; split_and!; reflexivity.
  - vm_compute. reflexivity.
  - vm_compute. reflexivity.
  - unfold new_TodoApp, loadTasks. app_simpl. destruct st as [x|]; [|right; reflexivity].
    destruct (bool_decide (x = [])); [right; reflexivity|].
    destruct (x0 ← JSON_parse x; load_map fb x0) as [ts|e]; [right|left]; app_simpl; auto.
Qed.

(** C4 fails as stated: the stored value [[1]] is no snapshot of tasks,
    yet loading it logs nothing and yields a collection of one task
    (with undefined id and text and completed false). *)
Lemma load_unvalidated_array :
  tasks (new_TodoApp (fun _ => None) (Some (js "[1]"))) =
    [new_Task JUndefined JUndefined JUndefined None] /\
  console_errors (new_TodoApp (fun _ => None) (Some (js "[1]"))) = [].
Proof. split; vm_compute; reflexivity. Qed.

(** ** C3: saving and loading *)

Lemma digits_value_app (a b : jstr) :
  digits_value (a ++ b) = digits_value a * 10 ^ Z.of_nat (length b) + digits_value b.
Proof.
  unfold digits_value. rewrite fold_left_app. generalize (fold_left (fun a0 d : Z => a0 * 10 + (d - 48)) a 0) as x.
  induction b as [|c b IH] using rev_ind; intros x; simpl; [lia|].
  rewrite !fold_left_app, length_app. simpl. rewrite IH.
  rewrite Nat2Z.inj_add, Z.pow_add_r by lia. simpl Z.of_nat. change (10 ^ 1) with 10. ring_simplify.
  replace (fold_left (fun a0 d : Z => a0 * 10 + (d - 48)) b 0) with (digits_value b) by reflexivity.
  lia.
Qed.

Lemma digits_value_repeat0 (k : nat) : digits_value (repeat 48 k) = 0.
Proof.
  unfold digits_value. induction k as [|k IH]; [reflexivity|]. exact IH.
Qed.

Lemma dec_rev_S (f : nat) (n : Z) :
  dec_rev (S f) n = if n <? 10 then [48 + n] else (48 + n mod 10) :: dec_rev f (n / 10).
Proof. reflexivity. Qed.

Lemma dec_rev_props (f : nat) (n : Z) :
  (f <> 0)%nat -> 0 <= n < 10 ^ Z.of_nat f ->
  Forall (fun c => is_digit c = true) (dec_rev f n) /\
  digits_value (rev (dec_rev f n)) = n /\
  (1 <= length (dec_rev f n))%nat /\
  (0 < n -> 10 ^ (Z.of_nat (length (dec_rev f n)) - 1) <= n /\
            exists c r, rev (dec_rev f n) = c :: r /\ 49 <= c <= 57).
Proof.
  revert n. induction f as [|f IH]; intros n Hf Hn; [lia|]. rewrite dec_rev_S.
  destruct (n <? 10) eqn:E.
  - apply Z.ltb_lt in E. simpl. split_and!.
    + constructor; [|constructor]. unfold is_digit. apply andb_true_intro; split; apply Z.leb_le; lia.
    + unfold digits_value. simpl. lia.
    + lia.
    + intros Hp. split; [simpl; lia|]. exists (48 + n), []. split; [reflexivity|lia].
  - apply Z.ltb_ge in E. destruct f as [|f']; [simpl in Hn; lia|].
    assert (Hq : 0 <= n / 10 < 10 ^ Z.of_nat (S f')).
    { split; [apply Z.div_pos; lia|]. apply Z.div_lt_upper_bound; [lia|].
      rewrite Nat2Z.inj_succ in Hn. rewrite Nat2Z.inj_succ, Z.pow_succ_r in Hn by lia.
      rewrite Z.mul_comm. lia. }
    destruct (IH (n / 10) ltac:(lia) Hq) as (A & B & C & D).
    assert (Hpos : 0 < n / 10) by (apply Z.div_str_pos; lia).
    destruct (D Hpos) as (D1 & c & r & Er & Hc).
    pose proof (Z.mod_pos_bound n 10 ltac:(lia)). pose proof (Z.div_mod n 10 ltac:(lia)).
    split_and!.
    + constructor; [|exact A]. unfold is_digit. apply andb_true_intro; split; apply Z.leb_le; lia.
    + cbn [rev]. rewrite digits_value_app, B. unfold digits_value. cbn. lia.
    + cbn [length]. lia.
    + intros _. split.
      * cbn [length]. set (L := length (dec_rev (S f') (n / 10))) in *.
        replace (Z.of_nat (S L) - 1) with (Z.succ (Z.of_nat L - 1)) by lia.
        rewrite Z.pow_succ_r by lia. lia.
      * cbn [rev]. rewrite Er. exists c, (r ++ [48 + n mod 10]). split; [reflexivity|lia].
Qed.

Lemma dec_props (n : Z) :
  0 <= n ->
  Forall (fun c => is_digit c = true) (dec n) /\ digits_value (dec n) = n /\
  (1 <= length (dec n))%nat /\
  (0 < n -> 10 ^ (Z.of_nat (length (dec n)) - 1) <= n /\
            exists c r, dec n = c :: r /\ 49 <= c <= 57).
Proof.
  intros Hn. unfold dec.
  assert (Hb : 0 <= n < 10 ^ Z.of_nat (S (Z.to_nat (Z.log2 n)))).
  { split; [lia|]. destruct (Z.eq_dec n 0) as [->|Hn0]; [simpl; lia|].
    pose proof (Z.log2_spec n ltac:(lia)) as [_ H2]. rewrite Nat2Z.inj_succ, Z2Nat.id by apply Z.log2_nonneg.
    eapply Z.lt_le_trans; [exact H2|]. apply Z.pow_le_mono_l. split; [lia|lia]. }
  destruct (dec_rev_props (S (Z.to_nat (Z.log2 n))) n ltac:(lia) Hb) as (A & B & C & D).
  split_and!.
  - apply Forall_rev. exact A.
  - exact B.
  - rewrite length_rev. exact C.
  - rewrite length_rev. exact D.
Qed.

Lemma read_digits_app (l rest : jstr) :
  Forall (fun c => is_digit c = true) l -> read_digits (length l) (l ++ rest) = Some (l, rest).
Proof.
  induction l as [|c l IH]; intros H; [destruct rest; reflexivity|].
  apply Forall_cons in H as [Hc H]. simpl. rewrite Hc, IH by exact H. reflexivity.
Qed.

Lemma dec_length_bound (w : nat) (n : Z) :
  (1 <= w)%nat -> 0 <= n < 10 ^ Z.of_nat w -> (length (dec n) <= w)%nat.
Proof.
  intros Hw Hn. destruct (Z.eq_dec n 0) as [->|Hn0]; [simpl; lia|].
  destruct (dec_props n ltac:(lia)) as (_ & _ & C & D). destruct (D ltac:(lia)) as [D1 _].
  assert (Hlt : 10 ^ (Z.of_nat (length (dec n)) - 1) < 10 ^ Z.of_nat w) by lia.
  apply Z.pow_lt_mono_r_iff in Hlt; lia.
Qed.

Lemma read_fixed_pad (w : nat) (n : Z) (rest : jstr) :
  (1 <= w)%nat -> 0 <= n < 10 ^ Z.of_nat w -> read_fixed w (pad w n ++ rest) = Some (n, rest).
Proof.
  intros Hw Hn. pose proof (dec_length_bound w n Hw Hn) as Hl.
  destruct (dec_props n ltac:(lia)) as (A & B & _ & _).
  unfold read_fixed, pad.
  replace w with (length (repeat 48 (w - length (dec n)) ++ dec n)) at 1
    by (rewrite length_app, repeat_length; lia).
  rewrite <- app_assoc, (app_assoc _ (dec n)). rewrite read_digits_app.
  - rewrite digits_value_app, digits_value_repeat0, B. reflexivity.
  - apply Forall_app. split; [|exact A]. apply Forall_forall. intros x Hx.
    apply list_elem_of_In, repeat_spec in Hx. subst. reflexivity.
Qed.

Lemma hex_value_hex_digit (d : Z) : 0 <= d < 16 -> hex_value (hex_digit d) = Some d.
Proof.
  intros Hd.
  assert (d = 0 \/ d = 1 \/ d = 2 \/ d = 3 \/ d = 4 \/ d = 5 \/ d = 6 \/ d = 7 \/
          d = 8 \/ d = 9 \/ d = 10 \/ d = 11 \/ d = 12 \/ d = 13 \/ d = 14 \/ d = 15) as Hc by lia.
  repeat destruct Hc as [->|Hc]; subst; reflexivity.
Qed.

Lemma hex_combine (c : Z) :
  0 <= c < 65536 ->
  0 <= c / 4096 < 16 /\
  ((c / 4096 * 16 + (c / 256) mod 16) * 16 + (c / 16) mod 16) * 16 + c mod 16 = c.
Proof.
  intros Hc. split.
  - split; [apply Z.div_pos; lia|]. apply Z.div_lt_upper_bound; lia.
  - pose proof (Z.div_mod c 16 ltac:(lia)). pose proof (Z.div_mod (c / 16) 16 ltac:(lia)).
    pose proof (Z.div_mod (c / 256) 16 ltac:(lia)).
    assert (E1 : c / 16 / 16 = c / 256) by (rewrite Z.div_div by lia; reflexivity).
    assert (E2 : c / 256 / 16 = c / 4096) by (rewrite Z.div_div by lia; reflexivity).
    lia.
Qed.

Lemma p_str_unicode_escape (c : Z) (r : jstr) :
  0 <= c < 65536 -> p_str (unicode_escape c ++ r) = cons_fst c (p_str r).
Proof.
  intros Hc. destruct (hex_combine c Hc) as [Hb Hcomb].
  pose proof (Z.mod_pos_bound (c / 256) 16 ltac:(lia)).
  pose proof (Z.mod_pos_bound (c / 16) 16 ltac:(lia)).
  pose proof (Z.mod_pos_bound c 16 ltac:(lia)).
  unfold unicode_escape. cbn [app p_str]. cbn -[hex_value hex_digit Z.div Z.modulo].
  rewrite !hex_value_hex_digit by lia. rewrite Hcomb. reflexivity.
Qed.

Lemma p_str_plain (c : Z) (r : jstr) :
  32 <= c -> c <> 34 -> c <> 92 -> p_str (c :: r) = cons_fst c (p_str r).
Proof.
  intros H1 H2 H3. cbn [p_str].
  rewrite (proj2 (Z.eqb_neq c 34) H2), (proj2 (Z.eqb_neq c 92) H3).
  rewrite (proj2 (Z.ltb_ge c 32) H1). reflexivity.
Qed.

Lemma p_str_quote_units_aux (n : nat) (s r : jstr) :
  (length s <= n)%nat -> Forall code_unit s ->
  p_str (quote_units s ++ 34 :: r) = Some (s, r).
Proof.
  revert s. induction n as [|n IH]; intros s Hl Hs.
  { destruct s; [reflexivity|simpl in Hl; lia]. }
  destruct s as [|c s]; [reflexivity|]. simpl in Hl.
  apply Forall_cons in Hs as [Hc Hs]. unfold code_unit in Hc.
  assert (IHs : p_str (quote_units s ++ 34 :: r) = Some (s, r)) by (apply IH; auto; lia).
  cbn [quote_units].
  destruct (Z.eqb_spec c 8) as [->|N8]; [simpl; rewrite IHs; reflexivity|].
  destruct (Z.eqb_spec c 9) as [->|N9]; [simpl; rewrite IHs; reflexivity|].
  destruct (Z.eqb_spec c 10) as [->|N10]; [simpl; rewrite IHs; reflexivity|].
  destruct (Z.eqb_spec c 12) as [->|N12]; [simpl; rewrite IHs; reflexivity|].
  destruct (Z.eqb_spec c 13) as [->|N13]; [simpl; rewrite IHs; reflexivity|].
  destruct (Z.eqb_spec c 34) as [->|N34]; [simpl; rewrite IHs; reflexivity|].
  destruct (Z.eqb_spec c 92) as [->|N92]; [simpl; rewrite IHs; reflexivity|].
  destruct (Z.ltb_spec c 32) as [Hlt|Hge].
  { rewrite <- app_assoc, p_str_unicode_escape by lia. rewrite IHs. reflexivity. }
  destruct (is_high_surrogate c) eqn:Hh.
  - unfold is_high_surrogate in Hh. apply andb_true_iff in Hh as [Hh1 Hh2].
    apply Z.leb_le in Hh1. apply Z.leb_le in Hh2.
    destruct s as [|c2 s2].
    + cbv beta iota. rewrite p_str_unicode_escape by lia. reflexivity.
    + apply Forall_cons in Hs as [Hc2 Hs2]. unfold code_unit in Hc2.
      destruct (is_low_surrogate c2) eqn:Hl2.
      * unfold is_low_surrogate in Hl2. apply andb_true_iff in Hl2 as [Hl2a Hl2b].
        apply Z.leb_le in Hl2a. apply Z.leb_le in Hl2b.
        cbn [app]. rewrite p_str_plain by lia. rewrite p_str_plain by lia.
        rewrite IH by (simpl in Hl; auto; lia). reflexivity.
      * rewrite <- app_assoc, p_str_unicode_escape by lia. rewrite IHs. reflexivity.
  - destruct (is_low_surrogate c) eqn:Hl'.
    + rewrite <- app_assoc, p_str_unicode_escape by lia. rewrite IHs. reflexivity.
    + cbn [app]. rewrite p_str_plain by lia. rewrite IHs. reflexivity.
Qed.

Lemma p_str_quote_units (s r : jstr) :
  Forall code_unit s -> p_str (quote_units s ++ 34 :: r) = Some (s, r).
Proof. apply p_str_quote_units_aux with (n := length s). lia. Qed.

Lemma pos_to_string_int (m e : Z) :
  0 < m -> 0 <= e -> m * 10 ^ e < 10 ^ 21 ->
  pos_to_string m e = dec m ++ repeat 48 (Z.to_nat e).
Proof.
  intros Hm He Hlt. destruct (dec_props m ltac:(lia)) as (_ & _ & C & D).
  destruct (D Hm) as [D1 _]. unfold pos_to_string.
  set (k := Z.of_nat (length (dec m))) in *.
  assert (Hke : k + e <= 21).
  { assert (H : 10 ^ (k - 1 + e) < 10 ^ 21).
    { rewrite Z.pow_add_r by lia. eapply Z.le_lt_trans; [|exact Hlt].
      apply Z.mul_le_mono_nonneg_r; [apply Z.pow_nonneg; lia | exact D1]. }
    apply Z.pow_lt_mono_r_iff in H; lia. }
  rewrite (proj2 (Z.leb_le k (k + e)) ltac:(lia)), (proj2 (Z.leb_le (k + e) 21) Hke).
  simpl. f_equal. f_equal. f_equal. lia.
Qed.

(** The digits of [num_of_Z z] as [Number::toString] writes them. *)
Lemma number_to_string_num_of_Z (z : Z) :
  Z.abs z < 10 ^ 21 ->
  exists ds, number_to_string (num_of_Z z) = (if z <? 0 then [45] else []) ++ ds /\
    Forall (fun c => is_digit c = true) ds /\ digits_value ds = Z.abs z /\
    (ds = [48] \/ exists c r, ds = c :: r /\ 49 <= c <= 57).
Proof.
  intros Hz. unfold num_of_Z, mk_number.
  destruct (Z.eqb_spec z 0) as [->|Hz0].
  { exists [48]. split_and!; [reflexivity|repeat constructor|reflexivity|left; reflexivity]. }
  pose proof (strip_zeros_spec (S (Z.to_nat (Z.log2 (Z.abs z)))) z 0 ltac:(lia)) as [A B].
  destruct (strip_zeros _ z 0) as [m e]. simpl in A, B. rewrite Z.mul_1_r in B.
  assert (Hpe : 0 < 10 ^ e) by (apply Z.pow_pos_nonneg; lia).
  set (ds := dec (Z.abs m) ++ repeat 48 (Z.to_nat e)).
  assert (Hm : 0 < Z.abs m) by (destruct (Z.eq_dec m 0); [subst; lia|lia]).
  assert (Hlt : Z.abs m * 10 ^ e < 10 ^ 21) by (rewrite <- B in Hz; rewrite Z.abs_mul, (Z.abs_eq (10 ^ e)) in Hz; lia).
  destruct (dec_props (Z.abs m) ltac:(lia)) as (DA & DB & _ & DD).
  destruct (DD Hm) as (_ & c & r & Ec & Hc).
  exists ds. split_and!.
  - unfold number_to_string. destruct (Z.ltb_spec m 0), (Z.ltb_spec z 0); try nia.
    + rewrite pos_to_string_int by lia. replace (- m) with (Z.abs m) by lia. reflexivity.
    + rewrite pos_to_string_int by lia. replace m with (Z.abs m) at 1 by lia. reflexivity.
  - apply Forall_app. split; [exact DA|]. apply Forall_forall. intros x Hx.
    apply list_elem_of_In, repeat_spec in Hx. subst. reflexivity.
  - unfold ds. rewrite digits_value_app, digits_value_repeat0, DB, repeat_length.
    rewrite Z2Nat.id by lia. rewrite <- B, Z.abs_mul, (Z.abs_eq (10 ^ e)); lia.
  - right. exists c, (r ++ repeat 48 (Z.to_nat e)). unfold ds. rewrite Ec. split; [reflexivity|exact Hc].
Qed.

Lemma span_digits_app (ds rest : jstr) (c : Z) :
  Forall (fun c => is_digit c = true) ds -> is_digit c = false ->
  span_digits (ds ++ c :: rest) = (ds, c :: rest).
Proof.
  intros H Hc. induction ds as [|d ds IH]; simpl.
  - rewrite Hc. reflexivity.
  - apply Forall_cons in H as [Hd H]. rewrite Hd, IH by exact H. reflexivity.
Qed.

(** A number followed by a comma or a closing brace. *)
Lemma p_number_num_of_Z (z : Z) (c : Z) (rest : jstr) :
  Z.abs z < 10 ^ 21 -> c = 44 \/ c = 125 ->
  p_number (number_to_string (num_of_Z z) ++ c :: rest) = Some (num_of_Z z, c :: rest).
Proof.
  intros Hz Hc. destruct (number_to_string_num_of_Z z Hz) as (ds & E & A & B & C).
  rewrite E.
  assert (Hnd : is_digit c = false) by (destruct Hc as [->| ->]; reflexivity).
  destruct Hc as [-> | ->]; destruct (Z.ltb_spec z 0);
    destruct C as [->|(d & r & -> & Hd)]; unfold p_number;
    cbn -[digits_value mk_number span_digits];
    try rewrite (proj2 (Z.eqb_neq d 45)) by lia; try rewrite (proj2 (Z.eqb_neq d 48)) by lia;
    try rewrite (proj2 (Z.leb_le 49 d)) by lia; try rewrite (proj2 (Z.leb_le d 57)) by lia;
    cbn -[digits_value mk_number span_digits];
    try (change (d :: r ++ ?c' :: rest) with ((d :: r) ++ c' :: rest);
         rewrite span_digits_app by assumption);
    cbn -[digits_value mk_number];
    try (change (digits_value [48]) with 0 in B);
    unfold num_of_Z; do 3 f_equal; lia.
Qed.

Lemma doe_check_era : doe_check (Z.to_nat 146097) 0 = true.
Proof. vm_compute. reflexivity. Qed.

Lemma doe_check_spec (n : nat) (z doe : Z) :
  doe_check n z = true -> z <= doe < z + Z.of_nat n -> doe_ok doe = true.
Proof.
  revert z. induction n as [|n IH]; intros z H Hd; [lia|].
  simpl in H. apply andb_true_iff in H as [H1 H2].
  destruct (Z.eq_dec doe z) as [->|Hne]; [exact H1|].
  apply (IH (z + 1)); [exact H2|lia].
Qed.

Lemma leap_year_period (x k : Z) : leap_year (x + 400 * k) = leap_year x.
Proof.
  unfold leap_year.
  replace (x + 400 * k) with (x + (100 * k) * 4) by lia. rewrite Z_mod_plus_full.
  replace (x + 100 * k * 4) with (x + (4 * k) * 100) by lia. rewrite Z_mod_plus_full.
  replace (x + 4 * k * 100) with (x + k * 400) by lia. rewrite Z_mod_plus_full. reflexivity.
Qed.

Lemma days_in_month_period (x k m : Z) : days_in_month (x + 400 * k) m = days_in_month x m.
Proof. unfold days_in_month. rewrite leap_year_period. reflexivity. Qed.

Lemma civil_from_days_spec (day y m d : Z) :
  civil_from_days day = (y, m, d) ->
  1 <= m <= 12 /\ 1 <= d <= days_in_month y m /\ days_from_civil y m d = day /\
  (Z.abs day <= 100000000 -> Z.abs y < 1000000).
Proof.
  unfold civil_from_days. intros E.
  set (era := (day + 719468) / 146097) in *.
  pose proof (Z.div_mod (day + 719468) 146097 ltac:(lia)) as Hdm.
  pose proof (Z.mod_pos_bound (day + 719468) 146097 ltac:(lia)) as Hmb.
  fold era in Hdm.
  assert (Hdoe : 0 <= day + 719468 - era * 146097 < 0 + Z.of_nat (Z.to_nat 146097)) by (rewrite Z2Nat.id; lia).
  pose proof (doe_check_spec _ _ _ doe_check_era Hdoe) as Hok.
  unfold doe_ok in Hok.
  destruct (civil_of_doe (day + 719468 - era * 146097)) as [[yoe m'] d'] eqn:Ec.
  injection E as Ey Em Ed. subst m' d'.
  repeat rewrite andb_true_iff in Hok.
  destruct Hok as ((((((H1 & H2) & H3) & H4) & H5) & H6) & H7).
  apply Z.leb_le in H1, H2, H3, H4, H5, H6. apply Z.eqb_eq in H7.
  set (b := if m <=? 2 then 1 else 0) in *.
  assert (Hb : 0 <= b <= 1) by (unfold b; destruct (m <=? 2); lia).
  split_and!; try lia.
  - rewrite <- Ey. replace (yoe + era * 400 + b) with ((yoe + b) + 400 * era) by lia.
    rewrite days_in_month_period. exact H6.
  - unfold days_from_civil. fold b. replace (y - b) with (yoe + era * 400) by lia.
    rewrite Z.div_add by lia. rewrite (Z.div_small yoe 400) by lia.
    replace (yoe + era * 400 - (0 + era) * 400) with yoe by lia.
    rewrite H7. lia.
Qed.

Lemma pad_cons (w : nat) (n : Z) :
  (1 <= w)%nat -> 0 <= n < 10 ^ Z.of_nat w ->
  exists c r, pad w n = c :: r /\ is_digit c = true.
Proof.
  intros Hw Hn. pose proof (dec_length_bound w n Hw Hn) as Hl.
  destruct (dec_props n ltac:(lia)) as (A & _ & C & _).
  unfold pad. destruct (w - length (dec n))%nat as [|k] eqn:Ek.
  - simpl. destruct (dec n) as [|c r]; [simpl in C; lia|]. exists c, r. split; [reflexivity|].
    apply Forall_cons in A as [A _]. exact A.
  - exists 48, (repeat 48 k ++ dec n). split; reflexivity.
Qed.

Lemma read_year_string (y : Z) (rest : jstr) :
  Z.abs y < 1000000 -> read_year (year_string y ++ rest) = Some (y, rest).
Proof.
  intros Hy. unfold year_string.
  destruct ((0 <=? y) && (y <=? 9999)) eqn:E.
  - apply andb_true_iff in E as [E1 E2]. apply Z.leb_le in E1, E2.
    destruct (pad_cons 4 y ltac:(lia) ltac:(simpl; lia)) as (c & r & Ep & Hc).
    unfold read_year. rewrite Ep. cbn [app].
    unfold is_digit in Hc. apply andb_true_iff in Hc as [Hc1 Hc2]. apply Z.leb_le in Hc1, Hc2.
    rewrite (proj2 (Z.eqb_neq c 43)) by lia. rewrite (proj2 (Z.eqb_neq c 45)) by lia.
    change (c :: r ++ rest) with ((c :: r) ++ rest). rewrite <- Ep. apply read_fixed_pad; simpl; lia.
  - destruct (Z.ltb_spec y 0).
    + cbn [js list_ascii_of_string map app]. unfold read_year.
      change (Z.of_nat (nat_of_ascii "-")) with 45. cbn [Z.eqb Pos.eqb].
      rewrite read_fixed_pad by (simpl; lia).
      destruct (Z.eqb_spec (Z.abs y) 0); [lia|]. f_equal. f_equal. lia.
    + cbn [js list_ascii_of_string map app]. unfold read_year.
      change (Z.of_nat (nat_of_ascii "+")) with 43. cbn [Z.eqb Pos.eqb].
      rewrite read_fixed_pad by (simpl; lia). f_equal. f_equal. lia.
Qed.

Lemma option_bind_Some {A B} (x : A) (f : A -> option B) : (Some x ≫= f) = f x.
Proof. reflexivity. Qed.

Lemma parse_iso_fields (y mo d h mi sc ms : Z) :
  Z.abs y < 1000000 -> 1 <= mo <= 12 -> 1 <= d <= days_in_month y mo ->
  0 <= h <= 23 -> 0 <= mi <= 59 -> 0 <= sc <= 59 -> 0 <= ms <= 999 ->
  parse_iso (year_string y ++ js "-" ++ pad 2 mo ++ js "-" ++ pad 2 d ++ js "T" ++
             pad 2 h ++ js ":" ++ pad 2 mi ++ js ":" ++ pad 2 sc ++
             js "." ++ pad 3 ms ++ js "Z") =
  time_clip (days_from_civil y mo d * msPerDay + ((h * 60 + mi) * 60 + sc) * 1000 + ms).
Proof.
  intros Hy Hmo Hd Hh Hmi Hsc Hms.
  assert (Hdm : days_in_month y mo <= 31) by (unfold days_in_month; repeat case_match; lia).
  change (js "-") with [45]; change (js "T") with [84]; change (js ":") with [58];
  change (js ".") with [46]; change (js "Z") with [90].
  unfold parse_iso. rewrite read_year_string by exact Hy.
  repeat first [rewrite option_bind_Some | rewrite read_fixed_pad by (simpl; lia) |
                progress cbn [expect app Z.eqb Pos.eqb]].
  rewrite bool_decide_eq_true_2 by reflexivity.
  rewrite (proj2 (Z.leb_le 1 mo)), (proj2 (Z.leb_le mo 12)), (proj2 (Z.leb_le 1 d)),
    (proj2 (Z.leb_le d (days_in_month y mo))), (proj2 (Z.leb_le h 23)),
    (proj2 (Z.leb_le mi 59)), (proj2 (Z.leb_le sc 59)) by lia.
  reflexivity.
Qed.

Lemma toISOString_parse (tv : Z) :
  Z.abs tv <= 8640000000000000 -> parse_iso (toISOString tv) = Some tv.
Proof.
  intros Htv. unfold toISOString.
  destruct (civil_from_days (tv / msPerDay)) as [[y mo] d] eqn:Ec.
  destruct (civil_from_days_spec _ _ _ _ Ec) as (Hmo & Hd & Hdays & Hyb).
  unfold msPerDay in *.
  pose proof (Z.div_mod tv 86400000 ltac:(lia)) as Htd.
  pose proof (Z.mod_pos_bound tv 86400000 ltac:(lia)) as Hmsd.
  set (msd := tv mod 86400000) in *. set (day := tv / 86400000) in *.
  assert (Hday : Z.abs day <= 100000000) by lia.
  pose proof (Z.div_mod msd 1000 ltac:(lia)) as H1.
  pose proof (Z.mod_pos_bound msd 1000 ltac:(lia)) as H1b.
  set (sec := msd / 1000) in *.
  assert (Hsec : 0 <= sec < 86400) by lia.
  pose proof (Z.div_mod sec 60 ltac:(lia)) as H2.
  pose proof (Z.mod_pos_bound sec 60 ltac:(lia)) as H2b.
  set (mins := sec / 60) in *.
  assert (Hmins : 0 <= mins < 1440) by lia.
  pose proof (Z.div_mod mins 60 ltac:(lia)) as H3.
  pose proof (Z.mod_pos_bound mins 60 ltac:(lia)) as H3b.
  assert (Hh : 0 <= mins / 60 <= 23) by lia.
  rewrite parse_iso_fields by lia.
  rewrite Hdays. unfold msPerDay, time_clip.
  rewrite (proj2 (Z.leb_le _ _)) by lia. f_equal. lia.
Qed.

Lemma object_members_record (a b c d : jstr) :
  object_members [(js "id", Some a); (js "text", Some b); (js "completed", Some c);
                  (js "createdAt", Some d)] =
  [quote (js "id") ++ [58] ++ a; quote (js "text") ++ [58] ++ b;
   quote (js "completed") ++ [58] ++ c; quote (js "createdAt") ++ [58] ++ d].
Proof. reflexivity. Qed.

Lemma js_code_units (s : string) : Forall code_unit (js s).
Proof.
  unfold js. induction s as [|a s IH]; simpl; constructor; [|exact IH].
  pose proof (nat_ascii_bounded a). unfold code_unit. lia.
Qed.

Ltac json_step := cbn [p_value p_members skip_ws is_json_ws orb andb Z.eqb Pos.eqb wrap app].

Lemma p_value_string (k : nat) (x : jstr) (c : Z) (rest : jstr) :
  Forall code_unit x -> p_value (S k) (quote x ++ c :: rest) = Some (JString x, c :: rest).
Proof.
  intros Hx. unfold quote. rewrite <- !app_assoc. json_step.
  rewrite p_str_quote_units by exact Hx. reflexivity.
Qed.

Lemma p_value_bool (k : nat) (b : bool) (c : Z) (rest : jstr) :
  p_value (S k) ((if b then js "true" else js "false") ++ c :: rest) = Some (JBool b, c :: rest).
Proof. destruct b; reflexivity. Qed.

Lemma p_value_number (k : nat) (z c : Z) (rest : jstr) :
  Z.abs z < 10 ^ 21 -> c = 44 \/ c = 125 ->
  p_value (S k) (number_to_string (num_of_Z z) ++ c :: rest) = Some (JNumber (num_of_Z z), c :: rest).
Proof.
  intros Hz Hc. pose proof (p_number_num_of_Z z c rest Hz Hc) as Hp.
  destruct (number_to_string_num_of_Z z Hz) as (ds & E & _ & _ & C).
  assert (Hfirst : exists c0 tl, number_to_string (num_of_Z z) = c0 :: tl /\
                   (c0 = 45 \/ 48 <= c0 <= 57)).
  { rewrite E. destruct (z <? 0).
    - eexists _, _. split; [reflexivity|left; reflexivity].
    - destruct C as [->|(d & r & -> & Hd)].
      + eexists _, _. split; [reflexivity|right; lia].
      + eexists _, _. split; [reflexivity|right; lia]. }
  destruct Hfirst as (c0 & tl & E0 & Hc0). rewrite E0 in Hp |- *. cbn [app] in Hp |- *.
  json_step.
  assert (Hws : is_json_ws c0 = false).
  { unfold is_json_ws. rewrite (proj2 (Z.eqb_neq c0 9)), (proj2 (Z.eqb_neq c0 10)),
      (proj2 (Z.eqb_neq c0 13)), (proj2 (Z.eqb_neq c0 32)) by lia. reflexivity. }
  rewrite Hws.
  rewrite (proj2 (Z.eqb_neq c0 34)), (proj2 (Z.eqb_neq c0 91)), (proj2 (Z.eqb_neq c0 123)),
    (proj2 (Z.eqb_neq c0 116)), (proj2 (Z.eqb_neq c0 102)), (proj2 (Z.eqb_neq c0 110)) by lia.
  rewrite Hp. reflexivity.
Qed.

Lemma p_members_next (k : nat) (key : jstr) (r : jstr) (v : jsval) (rest : jstr) obj :
  Forall code_unit key -> p_value k r = Some (v, 44 :: rest) ->
  p_members (S k) (quote key ++ 58 :: r) obj = p_members k rest (add_prop key v obj).
Proof.
  intros Hk Hv. unfold quote. rewrite <- !app_assoc. json_step.
  rewrite p_str_quote_units by exact Hk. json_step. rewrite Hv. reflexivity.
Qed.

Lemma p_members_last (k : nat) (key : jstr) (r : jstr) (v : jsval) (rest : jstr) obj :
  Forall code_unit key -> p_value k r = Some (v, 125 :: rest) ->
  p_members (S k) (quote key ++ 58 :: r) obj = Some (JObject (add_prop key v obj), rest).
Proof.
  intros Hk Hv. unfold quote. rewrite <- !app_assoc. json_step.
  rewrite p_str_quote_units by exact Hk. json_step. rewrite Hv. reflexivity.
Qed.

Lemma p_record (a b c d : jstr) (va vb vc vd : jsval) (n : nat) (e : Z) (rest : jstr) :
  (forall k r, p_value (S k) (a ++ 44 :: r) = Some (va, 44 :: r)) ->
  (forall k r, p_value (S k) (b ++ 44 :: r) = Some (vb, 44 :: r)) ->
  (forall k r, p_value (S k) (c ++ 44 :: r) = Some (vc, 44 :: r)) ->
  (forall k r, p_value (S k) (d ++ 125 :: r) = Some (vd, 125 :: r)) ->
  (6 <= n)%nat ->
  p_value n (([123] ++ join_comma [quote (js "id") ++ [58] ++ a; quote (js "text") ++ [58] ++ b;
     quote (js "completed") ++ [58] ++ c; quote (js "createdAt") ++ [58] ++ d] ++ [125]) ++ e :: rest) =
  Some (JObject [(js "id", va); (js "text", vb); (js "completed", vc); (js "createdAt", vd)], e :: rest).
Proof.
  intros Ha Hb Hc Hd Hn.
  do 6 (destruct n as [|n]; [lia|]).
  cbn [join_comma]. rewrite <- !app_assoc. cbn [app].
  pose proof (js_code_units "id") as K1. pose proof (js_code_units "text") as K2.
  pose proof (js_code_units "completed") as K3. pose proof (js_code_units "createdAt") as K4.
  assert (E1 : forall k s, p_value (S k) (123 :: s) =
            match skip_ws s with
            | d0 :: r' => if d0 =? 125 then Some (JObject [], r') else p_members k s []
            | [] => None
            end) by reflexivity.
  rewrite E1.
  let q := eval vm_compute in (quote (js "id")) in change (quote (js "id")) with q at 1.
  cbn [skip_ws is_json_ws orb Z.eqb Pos.eqb].
  let q := eval vm_compute in (quote (js "id")) in change q with (quote (js "id")).
  erewrite p_members_next; [|exact K1|apply Ha].
  erewrite p_members_next; [|exact K2|apply Hb].
  erewrite p_members_next; [|exact K3|apply Hc].
  erewrite p_members_last; [|exact K4|apply Hd].
  reflexivity.
Qed.

Lemma pad_code_units (w : nat) (n : Z) : 0 <= n -> Forall code_unit (pad w n).
Proof.
  intros Hn. destruct (dec_props n Hn) as (A & _). unfold pad. apply Forall_app. split.
  - apply Forall_forall. intros c Hc. apply list_elem_of_In, repeat_spec in Hc. subst.
    unfold code_unit. lia.
  - eapply Forall_impl; [exact A|]. intros c Hc. unfold is_digit in Hc.
    apply andb_true_iff in Hc as [H1 H2]. apply Z.leb_le in H1, H2. unfold code_unit. lia.
Qed.

Lemma toISOString_code_units (tv : Z) : Forall code_unit (toISOString tv).
Proof.
  unfold toISOString, msPerDay.
  destruct (civil_from_days (tv / 86400000)) as [[y mo] d] eqn:Ec.
  destruct (civil_from_days_spec _ _ _ _ Ec) as (Hmo & Hd & _).
  pose proof (Z.mod_pos_bound tv 86400000 ltac:(lia)).
  pose proof (Z.mod_pos_bound (tv mod 86400000) 1000 ltac:(lia)).
  assert (0 <= tv mod 86400000 / 1000) by (apply Z.div_pos; lia).
  assert (0 <= tv mod 86400000 / 1000 / 60) by (apply Z.div_pos; lia).
  assert (0 <= tv mod 86400000 / 1000 / 60 / 60) by (apply Z.div_pos; lia).
  pose proof (Z.mod_pos_bound (tv mod 86400000 / 1000 / 60) 60 ltac:(lia)).
  pose proof (Z.mod_pos_bound (tv mod 86400000 / 1000) 60 ltac:(lia)).
  assert (Hy : Forall code_unit (year_string y)).
  { unfold year_string. destruct ((0 <=? y) && (y <=? 9999)) eqn:E.
    - apply andb_true_iff in E as [E _]. apply Z.leb_le in E. apply pad_code_units. exact E.
    - apply Forall_app. split; [destruct (y <? 0); apply js_code_units|].
      apply pad_code_units. lia. }
  cbv zeta.
  repeat first [exact Hy | apply js_code_units | (apply pad_code_units; lia) | (apply Forall_app; split)].
Qed.

Lemma ser_task_record (t : Task) :
  wf_task t ->
  exists str, ser (task_record t) = Some str /\ (exists r, str = 123 :: r) /\
    forall n e rest, (6 <= n)%nat -> e = 44 \/ e = 93 ->
      p_value n (str ++ e :: rest) = Some (task_record t, e :: rest).
Proof.
  intros ((z & Ei & Hz) & (x & Ex & Hx) & (b & Eb) & (tv & Etv & Htv)).
  destruct t as [i x' c ca]. simpl in *. subst.
  exists ([123] ++ join_comma [quote (js "id") ++ [58] ++ number_to_string (num_of_Z z);
            quote (js "text") ++ [58] ++ quote x;
            quote (js "completed") ++ [58] ++ (if b then js "true" else js "false");
            quote (js "createdAt") ++ [58] ++ quote (toISOString tv)] ++ [125]).
  split_and!.
  - destruct b; reflexivity.
  - eexists. reflexivity.
  - intros n e rest Hn He. apply p_record; [| | | |exact Hn].
    + intros k r. apply p_value_number; auto.
    + intros k r. apply p_value_string. exact Hx.
    + intros k r. apply p_value_bool.
    + intros k r. apply p_value_string. apply toISOString_code_units.
Qed.

Lemma except_bind_Ok {A B} (a : A) (f : A -> except B) : (Ok a ≫= f) = f a.
Proof. reflexivity. Qed.

Lemma task_of_json_record (fb : jstr -> option Z) (t : Task) :
  wf_task t -> task_of_json fb (task_record t) = Ok t.
Proof.
  intros (_ & _ & (b & Eb) & (tv & Etv & Htv)).
  unfold task_of_json.
  replace (get_prop (task_record t) (js "id")) with (Ok (id t)) by reflexivity.
  rewrite except_bind_Ok.
  replace (get_prop (task_record t) (js "text")) with (Ok (text t)) by reflexivity.
  rewrite except_bind_Ok.
  replace (get_prop (task_record t) (js "completed")) with (Ok (completed t)) by reflexivity.
  rewrite except_bind_Ok.
  replace (get_prop (task_record t) (js "createdAt")) with (Ok (date_toJSON (createdAt t))) by reflexivity.
  rewrite except_bind_Ok. rewrite Etv.
  change (new_Date fb (date_toJSON (Some tv))) with (Ok (date_parse fb (toISOString tv)) : except time_value).
  unfold date_parse. rewrite toISOString_parse by exact Htv.
  rewrite except_bind_Ok. unfold new_Task. rewrite Eb.
  destruct t; simpl in *; subst; reflexivity.
Qed.

Lemma p_elems_records (ts : list Task) :
  Forall wf_task ts -> ts <> [] ->
  forall n rest, (length ts + 6 <= n)%nat ->
  p_elems n (join_comma (map ser_elem (map task_record ts)) ++ 93 :: rest) =
  Some (map task_record ts, rest).
Proof.
  induction ts as [|t ts IH]; intros Hwf Hne n rest Hn; [congruence|].
  apply Forall_cons in Hwf as [Ht Hwf].
  destruct (ser_task_record t Ht) as (str & Es & _ & Hp).
  destruct n as [|k]; [simpl in Hn; lia|].
  assert (Ee : ser_elem (task_record t) = str) by (unfold ser_elem; rewrite Es; reflexivity).
  destruct ts as [|t2 ts'].
  - cbn [map join_comma]. rewrite Ee. cbn [p_elems].
    rewrite Hp by (simpl in Hn; lia || auto). reflexivity.
  - change (join_comma (map ser_elem (map task_record (t :: t2 :: ts')))) with
      (ser_elem (task_record t) ++ [44] ++ join_comma (map ser_elem (map task_record (t2 :: ts')))).
    rewrite Ee. rewrite <- !app_assoc. cbn [app p_elems].
    rewrite Hp by (simpl in Hn; lia || auto). cbn [skip_ws is_json_ws orb Z.eqb Pos.eqb].
    rewrite IH by (auto || discriminate || (simpl in Hn |- *; lia)). reflexivity.
Qed.

Lemma join_comma_length (l : list jstr) :
  Forall (fun s => s <> []) l -> (length l <= length (join_comma l))%nat.
Proof.
  induction l as [|x l IH]; intros H; [simpl; lia|].
  apply Forall_cons in H as [Hx H]. destruct l as [|y l].
  - simpl. destruct x; [congruence|simpl; lia].
  - change (join_comma (x :: y :: l)) with (x ++ [44] ++ join_comma (y :: l)).
    rewrite !length_app. specialize (IH H). simpl in IH |- *. lia.
Qed.

Lemma JSON_parse_records (ts : list Task) :
  Forall wf_task ts ->
  JSON_parse ([91] ++ join_comma (map ser_elem (map task_record ts)) ++ [93]) =
  Ok (JArray (map task_record ts)).
Proof.
  intros Hwf. destruct ts as [|t ts']; [reflexivity|].
  set (J := join_comma (map ser_elem (map task_record (t :: ts')))).
  assert (HJ : exists r, J = 123 :: r).
  { destruct (ser_task_record t (Forall_inv Hwf)) as (str & Es & (r & Er) & _).
    unfold J. cbn [map]. destruct ts' as [|t2 ts''].
    - cbn [map join_comma]. unfold ser_elem. rewrite Es, Er. eexists; reflexivity.
    - change (join_comma (ser_elem (task_record t) :: map ser_elem (map task_record (t2 :: ts''))))
        with (ser_elem (task_record t) ++ [44] ++ join_comma (map ser_elem (map task_record (t2 :: ts'')))).
      unfold ser_elem at 1. rewrite Es, Er. eexists; reflexivity. }
  assert (Hlen : (length (t :: ts') <= length J)%nat).
  { unfold J. rewrite <- (length_map task_record (t :: ts')), <- (length_map ser_elem (map task_record (t :: ts'))).
    apply join_comma_length. apply Forall_forall. intros v Hv.
    apply list_elem_of_In, in_map_iff in Hv as (w & <- & Hw).
    apply in_map_iff in Hw as (u & <- & Hu). apply list_elem_of_In in Hu.
    destruct (ser_task_record u (proj1 (Forall_forall _ _) Hwf u Hu)) as (str & Es & (r & Er) & _).
    unfold ser_elem. rewrite Es, Er. discriminate. }
  destruct HJ as (r & ER).
  unfold JSON_parse. rewrite length_app, length_app. cbn [length].
  remember (2 * (1 + (length J + 1)) + 2)%nat as fuel eqn:Ef.
  destruct fuel as [|m]; [lia|].
  cbn [app p_value skip_ws is_json_ws orb Z.eqb Pos.eqb].
  assert (Hs : skip_ws (J ++ [93]) = 123 :: (r ++ [93])) by (rewrite ER; reflexivity).
  rewrite Hs. cbn [Z.eqb Pos.eqb].
  unfold J. rewrite p_elems_records.
  - reflexivity.
  - exact Hwf.
  - discriminate.
  - fold J. simpl length in *. lia.
Qed.

Lemma emap_task_of_json (fb : jstr -> option Z) (ts : list Task) :
  Forall wf_task ts -> emap (task_of_json fb) (map task_record ts) = Ok ts.
Proof.
  induction ts as [|t ts IH]; intros H; [reflexivity|].
  apply Forall_cons in H as [Ht H]. cbn [map emap].
  rewrite task_of_json_record by exact Ht. rewrite except_bind_Ok, IH by exact H. reflexivity.
Qed.

(** C3, for well-formed collections.  For every collection of
    well-formed tasks ([wf_task]: integer id, string text, boolean
    completed, valid date), saving it with [saveTasks] and loading the
    stored string in a new [TodoApp] gives back the same tasks (same ids,
    texts, completed flags and timestamps, in the same order), and
    nothing is logged. *)
Theorem save_load_roundtrip (fb : jstr -> option Z) (s : TodoApp) :
  Forall wf_task (tasks s) ->
  tasks (new_TodoApp fb (storage (saveTasks s))) = tasks s /\
  console_errors (new_TodoApp fb (storage (saveTasks s))) = [].
Proof.
  intros Hwf. unfold new_TodoApp, loadTasks, saveTasks. app_simpl.
  replace (JSON_stringify (JArray (map task_record (tasks s)))) with
    (Some ([91] ++ join_comma (map ser_elem (map task_record (tasks s))) ++ [93])) by reflexivity.
  rewrite bool_decide_eq_false_2 by discriminate.
  rewrite JSON_parse_records by exact Hwf. rewrite except_bind_Ok.
  cbn [load_map]. rewrite emap_task_of_json by exact Hwf. split; reflexivity.
Qed.

Lemma save_load_roundtrip_witness :
  Forall wf_task (tasks app1) /\
  tasks (new_TodoApp (fun _ => None) (storage (saveTasks app1))) = tasks app1.
Proof.
  assert (H : Forall wf_task (tasks app1)).
  { constructor; [|constructor]. split_and!.
    - exists 1700000000000. split; [reflexivity|simpl; lia].
    - exists (js "Buy milk"). split; [reflexivity|apply js_code_units].
    - exists false. reflexivity.
    - exists 1700000000000. split; [reflexivity|simpl; lia]. }
  split; [exact H|]. exact (proj1 (save_load_roundtrip (fun _ => None) app1 H)).
Defined.

(* ================================================================== *)
(** ** Further properties of the code *)

Lemma List_filter_length_split (p : Task -> bool) (l : list Task) :
  (length (List.filter p l) + length (List.filter (fun t => negb (p t)) l) = length l)%nat.
Proof. induction l as [|t l IH]; simpl; [reflexivity|]. destruct (p t); simpl; lia. Qed.

Lemma List_filter_none (p : Task -> bool) (l : list Task) :
  Forall (fun t => p t = false) l -> List.filter p l = [].
Proof. induction 1 as [|t l Ht _ IH]; simpl; [reflexivity|]. rewrite Ht. exact IH. Qed.

Lemma getFilteredTasks_active (s : TodoApp) :
  getFilteredTasks (setFilter s (JString (js "active"))) =
  List.filter (fun t => negb (truthy (completed t))) (tasks s).
Proof. unfold getFilteredTasks. cbn. reflexivity. Qed.

Lemma getFilteredTasks_completed (s : TodoApp) :
  getFilteredTasks (setFilter s (JString (js "completed"))) =
  List.filter (fun t => truthy (completed t)) (tasks s).
Proof. unfold getFilteredTasks. cbn. reflexivity. Qed.

Lemma getFilteredTasks_all (s : TodoApp) :
  getFilteredTasks (setFilter s (JString (js "all"))) = tasks s.
Proof. unfold getFilteredTasks. cbn. reflexivity. Qed.

(** [updateStats] agrees with the views: the total is the number of
    tasks, the active count is the number of tasks the Active filter shows,
    the completed count the number the Completed filter shows, and the
    total is their sum. *)
Theorem updateStats_views (s : TodoApp) :
  let '(total, active, ncompleted) := updateStats s in
  total = Z.of_nat (length (getFilteredTasks (setFilter s (JString (js "all"))))) /\
  active = Z.of_nat (length (getFilteredTasks (setFilter s (JString (js "active"))))) /\
  ncompleted = Z.of_nat (length (getFilteredTasks (setFilter s (JString (js "completed"))))) /\
  total = active + ncompleted.
Proof.
  unfold updateStats. rewrite getFilteredTasks_all, getFilteredTasks_active, getFilteredTasks_completed.
  pose proof (List_filter_length_split (fun t => truthy (completed t)) (tasks s)).
  split_and!; lia.
Qed.

Lemma escape_text_no_angle (x : jstr) :
  Forall (fun c => c <> 60 /\ c <> 62) (escape_text x).
Proof.
  induction x as [|c x IH]; simpl; [constructor|]. apply Forall_app. split; [|exact IH].
  destruct (c =? 38) eqn:E1; [apply Forall_forall; intros y Hy; apply list_elem_of_In in Hy; vm_compute in Hy; intuition lia|].
  destruct (c =? 160) eqn:E2; [apply Forall_forall; intros y Hy; apply list_elem_of_In in Hy; vm_compute in Hy; intuition lia|].
  destruct (c =? 60) eqn:E3; [apply Forall_forall; intros y Hy; apply list_elem_of_In in Hy; vm_compute in Hy; intuition lia|].
  destruct (c =? 62) eqn:E4; [apply Forall_forall; intros y Hy; apply list_elem_of_In in Hy; vm_compute in Hy; intuition lia|].
  apply Z.eqb_neq in E3, E4. repeat constructor; assumption.
Qed.

(** Whatever the value, the markup [escapeHtml] returns contains no [<]
    and no [>]: a task text can never open or close a tag. *)
Theorem escapeHtml_no_markup (v : jsval) (h : jstr) :
  escapeHtml v = Ok h -> (60 ∉ h) /\ (62 ∉ h).
Proof.
  intros H.
  assert (Hf : Forall (fun c => c <> 60 /\ c <> 62) h).
  { unfold escapeHtml in H. destruct v;
      try (injection H as <-; apply Forall_nil; exact I);
      (match type of H with context [to_str ?w] => destruct (to_str w) eqn:E end);
      cbn in H; try discriminate;
      injection H as E'; rewrite <- E'; apply escape_text_no_angle. }
  split; intros Hin; rewrite Forall_forall in Hf; apply Hf in Hin; lia.
Qed.

Lemma escape_text_nil (x : jstr) : escape_text x = [] -> x = [].
Proof.
  destruct x as [|c x]; [reflexivity|]. simpl.
  destruct (c =? 38), (c =? 160), (c =? 60), (c =? 62); discriminate.
Qed.

Lemma escape_text_inj (x y : jstr) : escape_text x = escape_text y -> x = y.
Proof.
  revert y. induction x as [|c x IH]; intros y H.
  - symmetry. apply escape_text_nil. symmetry. exact H.
  - destruct y as [|c' y].
    + apply escape_text_nil in H. discriminate.
    + cbn [escape_text] in H.
      destruct (c =? 38) eqn:E1; [|destruct (c =? 160) eqn:E2; [|destruct (c =? 60) eqn:E3; [|destruct (c =? 62) eqn:E4]]];
      (destruct (c' =? 38) eqn:F1; [|destruct (c' =? 160) eqn:F2; [|destruct (c' =? 60) eqn:F3; [|destruct (c' =? 62) eqn:F4]]]);
      simpl in H; injection H; intros; subst;
      repeat match goal with
             | E : (?a =? ?b) = true |- _ => apply Z.eqb_eq in E; subst a
             end;
      try (rewrite Z.eqb_refl in *; discriminate);
      try discriminate;
      f_equal; apply IH; assumption.
Qed.

(** Two different texts never give the same markup. *)
Theorem escapeHtml_injective (x y : jstr) :
  escapeHtml (JString x) = escapeHtml (JString y) -> x = y.
Proof. simpl. intros H. injection H. apply escape_text_inj. Qed.

Lemma emap_Ok_iff {A B} (f : A -> except B) (l : list A) :
  (exists ys, emap f l = Ok ys) <-> Forall (fun x => exists y, f x = Ok y) l.
Proof.
  induction l as [|x l IH]; simpl.
  - split; [intros _; constructor | intros _; eexists; reflexivity].
  - rewrite Forall_cons, <- IH. destruct (f x) as [y|e]; cbn.
    + destruct (emap f l) as [ys|e]; cbn.
      * split; [intros _; split; eexists; reflexivity | intros _; eexists; reflexivity].
      * split; [intros [? H]; discriminate | intros [_ [? H]]; discriminate].
    + split; [intros [? H]; discriminate | intros [[? H] _]; discriminate].
Qed.

Lemma render_item_Ok (fd : time_value -> jstr) (t : Task) :
  (exists it, render_item fd t = Ok it) <->
  (exists a, to_str (id t) = Ok a) /\ (exists h, escapeHtml (text t) = Ok h).
Proof.
  unfold render_item. destruct (to_str (id t)) as [a|e]; cbn.
  - destruct (escapeHtml (text t)) as [h|e]; cbn.
    + split; [intros _; split; eexists; reflexivity | intros _; eexists; reflexivity].
    + split; [intros [? H]; discriminate | intros [_ [? H]]; discriminate].
  - split; [intros [? H]; discriminate | intros [[? H] _]; discriminate].
Qed.

(** [render] completes exactly when, for every task the current filter
    shows, ToString of its id and the escaping of its text succeed. *)
Theorem render_ok_iff (fd : time_value -> jstr) (s : TodoApp) :
  (exists v, render fd s = Ok v) <->
  Forall (fun t => (exists a, to_str (id t) = Ok a) /\ (exists h, escapeHtml (text t) = Ok h))
         (getFilteredTasks s).
Proof.
  unfold render. rewrite <- (Forall_iff _ _ _ (render_item_Ok fd)), <- emap_Ok_iff.
  destruct (emap (render_item fd) (getFilteredTasks s)) as [its|e]; cbn.
  - split; intros _; eexists; reflexivity.
  - split; intros [? H]; discriminate.
Qed.

(** A number followed by a closing parenthesis, as in [app.toggleTask(1700000000000)]. *)
Lemma p_number_num_of_Z_paren (z : Z) (rest : jstr) :
  Z.abs z < 10 ^ 21 ->
  p_number (number_to_string (num_of_Z z) ++ 41 :: rest) = Some (num_of_Z z, 41 :: rest).
Proof.
  intros Hz. destruct (number_to_string_num_of_Z z Hz) as (ds & E & A & B & C).
  rewrite E.
  assert (Hnd : is_digit 41 = false) by reflexivity.
  destruct (Z.ltb_spec z 0);
    destruct C as [->|(d & r & -> & Hd)]; unfold p_number;
    cbn -[digits_value mk_number span_digits];
    try rewrite (proj2 (Z.eqb_neq d 45)) by lia; try rewrite (proj2 (Z.eqb_neq d 48)) by lia;
    try rewrite (proj2 (Z.leb_le 49 d)) by lia; try rewrite (proj2 (Z.leb_le d 57)) by lia;
    cbn -[digits_value mk_number span_digits];
    try (change (d :: r ++ ?c' :: rest) with ((d :: r) ++ c' :: rest);
         rewrite span_digits_app by assumption);
    cbn -[digits_value mk_number];
    try (change (digits_value [48]) with 0 in B);
    unfold num_of_Z; do 3 f_equal; lia.
Qed.

Lemma Forall_getFilteredTasks (P : Task -> Prop) (s : TodoApp) :
  Forall P (tasks s) -> Forall P (getFilteredTasks s).
Proof.
  intros H. unfold getFilteredTasks. destruct (currentFilter s); try exact H.
  repeat case_bool_decide; try exact H; apply Forall_List_filter; exact H.
Qed.

Lemma emap_render_item_wf (fd : time_value -> jstr) (l : list Task) :
  Forall wf_task l ->
  exists its, emap (render_item fd) l = Ok its /\ Forall2 (item_of fd) l its.
Proof.
  induction 1 as [|t l Ht _ IH]; [exists []; split; [reflexivity|constructor]|].
  destruct IH as (its & E & F).
  destruct Ht as ((z & Ei & Hz) & (x & Ex & _) & _ & _).
  set (a := number_to_string (num_of_Z z)).
  eexists (mkItem (js "task-item " ++ (if truthy (completed t) then js "completed" else []))
             a (escape_text x) (fd (createdAt t)) a a :: its).
  split.
  - cbn [emap]. rewrite E. unfold render_item. rewrite Ei, Ex. reflexivity.
  - constructor; [|exact F]. split_and!; cbn [item_class item_text item_meta toggle_arg edit_arg delete_arg].
    + reflexivity.
    + exists x. split; [exact Ex|reflexivity].
    + reflexivity.
    + intros a' Ha rest. exists (num_of_Z z). split; [exact Ei|].
      assert (a' = a) as -> by (repeat (apply elem_of_cons in Ha as [->|Ha]; [reflexivity|]);
                                apply elem_of_nil in Ha; contradiction).
      apply p_number_num_of_Z_paren. exact Hz.
Qed.

(** On well-formed tasks [render] completes; the empty state is shown
    exactly when the current filter shows no task; there is one list item
    per shown task, in order, whose class is ["task-item completed"] for a
    completed task and ["task-item "] otherwise, whose text is the escaped
    task text, whose date is [getFormattedDate()], and whose three button
    handlers all receive an argument that reads back as the task id. *)
Theorem render_wf (fd : time_value -> jstr) (s : TodoApp) :
  Forall wf_task (tasks s) ->
  exists v, render fd s = Ok v /\
    empty_shown v = bool_decide (getFilteredTasks s = []) /\
    Forall2 (item_of fd) (getFilteredTasks s) (items v).
Proof.
  intros H. destruct (emap_render_item_wf fd (getFilteredTasks s) (Forall_getFilteredTasks _ s H))
    as (its & E & F).
  eexists. unfold render. rewrite E. cbn. split_and!; [reflexivity| |exact F].
  apply bool_decide_ext. rewrite length_zero_iff_nil. reflexivity.
Qed.

(** ** Storage follows the collection *)

Lemma in_sync_saveTasks (s : TodoApp) : in_sync (saveTasks s).
Proof. reflexivity. Qed.

Lemma in_sync_same (s s' : TodoApp) :
  tasks s' = tasks s -> storage s' = storage s -> in_sync s -> in_sync s'.
Proof. unfold in_sync, saveTasks. app_simpl. intros -> ->. auto. Qed.

Lemma in_sync_step (fd : time_value -> jstr) (s : TodoApp) (o : op) : in_sync s -> in_sync (step fd s o).
Proof.
  intros H. destruct o as [x t1 t2|i c|i|i x|c|c|f]; cbn [step].
  - unfold addTask. app_simpl.
    case_bool_decide; [apply (in_sync_same s); auto|].
    destruct (100 <? _); [apply (in_sync_same s); auto|]. apply in_sync_saveTasks.
  - unfold deleteTask. destruct c; [apply in_sync_saveTasks|exact H].
  - unfold toggleTask. destruct (find_task _ _) as [[k t]|]; [apply in_sync_saveTasks|exact H].
  - unfold saveEdit. case_bool_decide; [apply (in_sync_same s); auto|].
    destruct (find_task _ _) as [[k t]|]; [|exact H]. reflexivity.
  - unfold clearCompleted. destruct c; [apply in_sync_saveTasks|exact H].
  - unfold clearAll. destruct c; [apply in_sync_saveTasks|exact H].
  - apply (in_sync_same s); auto.
Qed.


(** ** White space *)

Lemma drop_space_idem (l : jstr) : drop_space (drop_space l) = drop_space l.
Proof.
  induction l as [|c l IH]; [reflexivity|]. simpl.
  destruct (is_trim_space c) eqn:E; [exact IH|]. simpl. rewrite E. reflexivity.
Qed.

Lemma drop_space_app_last (l : jstr) (c : Z) :
  is_trim_space c = false -> drop_space (l ++ [c]) = drop_space l ++ [c].
Proof.
  intros Hc. induction l as [|c' l IH]; simpl; [rewrite Hc; reflexivity|].
  destruct (is_trim_space c'); [exact IH|reflexivity].
Qed.

Lemma drop_space_head (l : jstr) :
  drop_space l = [] \/ exists c r, drop_space l = c :: r /\ is_trim_space c = false.
Proof.
  induction l as [|c l IH]; [left; reflexivity|]. simpl.
  destruct (is_trim_space c) eqn:E; [exact IH|]. right. eauto.
Qed.

Lemma trim_idem (x : jstr) : trim (trim x) = trim x.
Proof.
  unfold trim. destruct (drop_space_head x) as [E|(c & r & E & Hc)]; rewrite E; [reflexivity|].
  cbn [rev]. rewrite drop_space_app_last by exact Hc. rewrite rev_app_distr. cbn [rev app].
  cbn [drop_space]. rewrite Hc. cbn [rev]. rewrite rev_involutive.
  rewrite drop_space_app_last by exact Hc. rewrite drop_space_idem, rev_app_distr. reflexivity.
Qed.

Lemma Forall_drop_space (P : Z -> Prop) (l : jstr) : Forall P l -> Forall P (drop_space l).
Proof.
  induction 1 as [|c l Hc Hl IH]; [constructor|]. simpl.
  destruct (is_trim_space c); [exact IH|constructor; assumption].
Qed.

Lemma Forall_trim (P : Z -> Prop) (x : jstr) : Forall P x -> Forall P (trim x).
Proof.
  intros H. unfold trim. apply Forall_rev, Forall_drop_space, Forall_rev, Forall_drop_space, H.
Qed.

(** ** Properties every operation keeps *)

Section Preserve.

Variable fd : time_value -> jstr.
Variable P : Task -> Prop.
Variable ok : op -> Prop.

Hypothesis P_add : forall x t1 t2, ok (OpAdd x t1 t2) -> trim x <> [] ->
  P (new_Task (JNumber (num_of_Z t1)) (JString (trim x)) JUndefined (Some t2)).
Hypothesis P_toggle : forall t b, P t -> P (set_completed t (JBool b)).
Hypothesis P_edit : forall i x t, ok (OpEdit i x) -> trim x <> [] -> P t ->
  P (set_text t (JString (trim x))).

Lemma Forall_insert_found (ts : list Task) (i : jsval) (k : nat) (t t' : Task) :
  Forall P ts -> find_task ts i = Some (k, t) -> (P t -> P t') -> Forall P (<[k := t']> ts).
Proof.
  intros H F Ht. apply find_task_Some in F as (Hk & _ & _).
  apply Forall_insert; [exact H|]. apply Ht. eapply Forall_lookup_1; eauto.
Qed.

Lemma step_preserves (s : TodoApp) (o : op) :
  ok o -> Forall P (tasks s) -> Forall P (tasks (step fd s o)).
Proof.
  intros Ho H. destruct o as [x t1 t2|i c|i|i x|c|c|f]; cbn [step].
  - unfold addTask. app_simpl. case_bool_decide; [exact H|].
    destruct (100 <? _); [exact H|]. app_simpl.
    apply Forall_app. split; [exact H|]. constructor; [|constructor]. apply P_add; assumption.
  - unfold deleteTask. destruct c; [app_simpl; apply Forall_List_filter, H|exact H].
  - unfold toggleTask. destruct (find_task _ _) as [[k t]|] eqn:F; [|exact H]. app_simpl.
    apply (Forall_insert_found _ i _ t); [exact H|exact F|apply P_toggle].
  - unfold saveEdit. case_bool_decide; [exact H|].
    destruct (find_task _ _) as [[k t]|] eqn:F; [|exact H]. app_simpl.
    apply (Forall_insert_found _ i _ t); [exact H|exact F|]. intros Ht. apply (P_edit i); assumption.
  - unfold clearCompleted. destruct c; [app_simpl; apply Forall_List_filter, H|exact H].
  - unfold clearAll. destruct c; [app_simpl; constructor|exact H].
  - exact H.
Qed.

Lemma run_preserves (ops : list op) (s : TodoApp) :
  Forall ok ops -> Forall P (tasks s) -> Forall P (tasks (run fd s ops)).
Proof.
  revert s. induction ops as [|o ops IH]; intros s Hops H; [exact H|].
  apply Forall_cons in Hops as [Ho Hops].
  unfold run. simpl fold_left. fold (run fd (step fd s o) ops). apply IH; [exact Hops|].
  apply step_preserves; assumption.
Qed.

End Preserve.

(** Every operation keeps task texts non-empty strings with no white
    space at either end. *)
Theorem run_texts_trimmed (fd : time_value -> jstr) (s : TodoApp) (ops : list op) :
  Forall text_ok (tasks s) -> Forall text_ok (tasks (run fd s ops)).
Proof.
  apply (run_preserves fd text_ok (fun _ => True)).
  - intros x t1 t2 _ Hx. exists (trim x). split_and!; [reflexivity|exact Hx|apply trim_idem].
  - intros t b H. exact H.
  - intros i x t _ Hx _. exists (trim x). split_and!; [reflexivity|exact Hx|apply trim_idem].
  - apply Forall_forall. intros; exact I.
Qed.

(** ** Saving and reloading, Invalid Dates included *)

Lemma wf_task_wf_task0 (t : Task) : wf_task t -> wf_task0 t.
Proof. intros (A & B & C & D). split_and!; auto. Qed.

Lemma reload_task_wf (t : Task) : wf_task t -> reload_task t = t.
Proof. intros (_ & _ & _ & (tv & E & _)). unfold reload_task. rewrite E. reflexivity. Qed.

Lemma ser_task_record0 (t : Task) :
  wf_task0 t ->
  exists str, ser (task_record t) = Some str /\ (exists r, str = 123 :: r) /\
    forall n e rest, (6 <= n)%nat -> e = 44 \/ e = 93 ->
      p_value n (str ++ e :: rest) = Some (task_record t, e :: rest).
Proof.
  intros ((z & Ei & Hz) & (x & Ex & Hx) & (b & Eb) & Hd).
  destruct Hd as [Etv | (tv & Etv & Htv)].
  - destruct t as [i x' c ca]. simpl in *. subst.
    exists ([123] ++ join_comma [quote (js "id") ++ [58] ++ number_to_string (num_of_Z z);
              quote (js "text") ++ [58] ++ quote x;
              quote (js "completed") ++ [58] ++ (if b then js "true" else js "false");
              quote (js "createdAt") ++ [58] ++ js "null"] ++ [125]).
    split_and!.
    + destruct b; reflexivity.
    + eexists. reflexivity.
    + intros n e rest Hn He. apply p_record; [| | | |exact Hn].
      * intros k r. apply p_value_number; auto.
      * intros k r. apply p_value_string. exact Hx.
      * intros k r. apply p_value_bool.
      * intros k r. reflexivity.
  - apply ser_task_record. split_and!; eauto.
Qed.

Lemma task_of_json_record0 (fb : jstr -> option Z) (t : Task) :
  wf_task0 t -> task_of_json fb (task_record t) = Ok (reload_task t).
Proof.
  intros H. destruct H as (A & B & (b & Eb) & [Etv | (tv & Etv & Htv)]).
  - unfold task_of_json, reload_task. rewrite Etv.
    replace (get_prop (task_record t) (js "id")) with (Ok (id t)) by reflexivity.
    rewrite except_bind_Ok.
    replace (get_prop (task_record t) (js "text")) with (Ok (text t)) by reflexivity.
    rewrite except_bind_Ok.
    replace (get_prop (task_record t) (js "completed")) with (Ok (completed t)) by reflexivity.
    rewrite except_bind_Ok.
    replace (get_prop (task_record t) (js "createdAt")) with (Ok (date_toJSON (createdAt t))) by reflexivity.
    rewrite except_bind_Ok. rewrite Etv. cbn. unfold new_Task. rewrite Eb. reflexivity.
  - rewrite task_of_json_record by (split_and!; eauto).
    unfold reload_task. rewrite Etv. reflexivity.
Qed.

Lemma p_elems_records0 (ts : list Task) :
  Forall wf_task0 ts -> ts <> [] ->
  forall n rest, (length ts + 6 <= n)%nat ->
  p_elems n (join_comma (map ser_elem (map task_record ts)) ++ 93 :: rest) =
  Some (map task_record ts, rest).
Proof.
  induction ts as [|t ts IH]; intros Hwf Hne n rest Hn; [congruence|].
  apply Forall_cons in Hwf as [Ht Hwf].
  destruct (ser_task_record0 t Ht) as (str & Es & _ & Hp).
  destruct n as [|k]; [simpl in Hn; lia|].
  assert (Ee : ser_elem (task_record t) = str) by (unfold ser_elem; rewrite Es; reflexivity).
  destruct ts as [|t2 ts'].
  - cbn [map join_comma]. rewrite Ee. cbn [p_elems].
    rewrite Hp by (simpl in Hn; lia || auto). reflexivity.
  - change (join_comma (map ser_elem (map task_record (t :: t2 :: ts')))) with
      (ser_elem (task_record t) ++ [44] ++ join_comma (map ser_elem (map task_record (t2 :: ts')))).
    rewrite Ee. rewrite <- !app_assoc. cbn [app p_elems].
    rewrite Hp by (simpl in Hn; lia || auto). cbn [skip_ws is_json_ws orb Z.eqb Pos.eqb].
    rewrite IH by (auto || discriminate || (simpl in Hn |- *; lia)). reflexivity.
Qed.

Lemma JSON_parse_records0 (ts : list Task) :
  Forall wf_task0 ts ->
  JSON_parse ([91] ++ join_comma (map ser_elem (map task_record ts)) ++ [93]) =
  Ok (JArray (map task_record ts)).
Proof.
  intros Hwf. destruct ts as [|t ts']; [reflexivity|].
  set (J := join_comma (map ser_elem (map task_record (t :: ts')))).
  assert (HJ : exists r, J = 123 :: r).
  { destruct (ser_task_record0 t (Forall_inv Hwf)) as (str & Es & (r & Er) & _).
    unfold J. cbn [map]. destruct ts' as [|t2 ts''].
    - cbn [map join_comma]. unfold ser_elem. rewrite Es, Er. eexists; reflexivity.
    - change (join_comma (ser_elem (task_record t) :: map ser_elem (map task_record (t2 :: ts''))))
        with (ser_elem (task_record t) ++ [44] ++ join_comma (map ser_elem (map task_record (t2 :: ts'')))).
      unfold ser_elem at 1. rewrite Es, Er. eexists; reflexivity. }
  assert (Hlen : (length (t :: ts') <= length J)%nat).
  { unfold J. rewrite <- (length_map task_record (t :: ts')), <- (length_map ser_elem (map task_record (t :: ts'))).
    apply join_comma_length. apply Forall_forall. intros v Hv.
    apply list_elem_of_In, in_map_iff in Hv as (w & <- & Hw).
    apply in_map_iff in Hw as (u & <- & Hu). apply list_elem_of_In in Hu.
    destruct (ser_task_record0 u (proj1 (Forall_forall _ _) Hwf u Hu)) as (str & Es & (r & Er) & _).
    unfold ser_elem. rewrite Es, Er. discriminate. }
  destruct HJ as (r & ER).
  unfold JSON_parse. rewrite length_app, length_app. cbn [length].
  remember (2 * (1 + (length J + 1)) + 2)%nat as fuel eqn:Ef.
  destruct fuel as [|m]; [lia|].
  cbn [app p_value skip_ws is_json_ws orb Z.eqb Pos.eqb].
  assert (Hs : skip_ws (J ++ [93]) = 123 :: (r ++ [93])) by (rewrite ER; reflexivity).
  rewrite Hs. cbn [Z.eqb Pos.eqb].
  unfold J. rewrite p_elems_records0.
  - reflexivity.
  - exact Hwf.
  - discriminate.
  - fold J. simpl length in *. lia.
Qed.

Lemma emap_task_of_json0 (fb : jstr -> option Z) (ts : list Task) :
  Forall wf_task0 ts -> emap (task_of_json fb) (map task_record ts) = Ok (map reload_task ts).
Proof.
  induction ts as [|t ts IH]; intros H; [reflexivity|].
  apply Forall_cons in H as [Ht H]. cbn [map emap].
  rewrite task_of_json_record0 by exact Ht. rewrite except_bind_Ok, IH by exact H. reflexivity.
Qed.

Lemma load_saved0 (fb : jstr -> option Z) (s : TodoApp) :
  Forall wf_task0 (tasks s) ->
  tasks (new_TodoApp fb (storage (saveTasks s))) = map reload_task (tasks s) /\
  console_errors (new_TodoApp fb (storage (saveTasks s))) = [].
Proof.
  intros Hwf. unfold new_TodoApp, loadTasks, saveTasks. app_simpl.
  replace (JSON_stringify (JArray (map task_record (tasks s)))) with
    (Some ([91] ++ join_comma (map ser_elem (map task_record (tasks s))) ++ [93])) by reflexivity.
  rewrite bool_decide_eq_false_2 by discriminate.
  rewrite JSON_parse_records0 by exact Hwf. rewrite except_bind_Ok.
  cbn [load_map]. rewrite emap_task_of_json0 by exact Hwf. split; reflexivity.
Qed.

(** For tasks with an integer id below 10^21 in magnitude, a string text
    of code units, a boolean [completed] and a valid or Invalid Date,
    saving and reloading gives back every task unchanged and logs
    nothing, except that a task whose date is an Invalid Date comes back
    dated at the epoch (time value 0): the date is stored as [null], and
    [new Date(null)] is the epoch. *)
Theorem save_load_invalid_date (fb : jstr -> option Z) (s : TodoApp) :
  Forall wf_task0 (tasks s) ->
  tasks (new_TodoApp fb (storage (saveTasks s))) = map reload_task (tasks s) /\
  console_errors (new_TodoApp fb (storage (saveTasks s))) = [].
Proof. apply load_saved0. Qed.

Lemma in_sync_run (fd : time_value -> jstr) (s : TodoApp) (ops : list op) : in_sync s -> in_sync (run fd s ops).
Proof.
  revert s. induction ops as [|o ops IH]; intros s H; [exact H|].
  unfold run. simpl fold_left. fold (run fd (step fd s o) ops). apply IH, in_sync_step, H.
Qed.

(** Storage always follows the collection: once the stored string is
    the serialization of the tasks, it stays so after any sequence of
    operations. *)
Theorem run_in_sync (fd : time_value -> jstr) (s : TodoApp) (ops : list op) : in_sync s -> in_sync (run fd s ops).
Proof. apply in_sync_run. Qed.

Lemma run_wf (fd : time_value -> jstr) (s : TodoApp) (ops : list op) :
  Forall op_ok ops -> Forall wf_task (tasks s) -> Forall wf_task (tasks (run fd s ops)).
Proof.
  apply run_preserves.
  - intros x t1 t2 (Hx & H1 & H2) _. split_and!.
    + exists t1. split; [reflexivity|exact H1].
    + exists (trim x). split; [reflexivity|apply Forall_trim, Hx].
    + exists false. reflexivity.
    + exists t2. split; [reflexivity|exact H2].
  - intros t b (A & B & _ & D). split_and!; [exact A|exact B|exists b; reflexivity|exact D].
  - intros i x t Hx _ (A & _ & C & D). split_and!; [exact A| |exact C|exact D].
    exists (trim x). split; [reflexivity|apply Forall_trim, Hx].
Qed.

(** After any sequence of operations with well-formed inputs, started
    from well-formed tasks whose storage is in sync, reloading the page
    gives back exactly the current tasks, without error. *)
Theorem reload_after_run (fb : jstr -> option Z) (fd : time_value -> jstr) (s : TodoApp) (ops : list op) :
  Forall wf_task (tasks s) -> in_sync s -> Forall op_ok ops ->
  tasks (new_TodoApp fb (storage (run fd s ops))) = tasks (run fd s ops) /\
  console_errors (new_TodoApp fb (storage (run fd s ops))) = [].
Proof.
  intros Hwf Hs Hops.
  pose proof (run_wf fd s ops Hops Hwf) as Hwf'.
  rewrite <- (in_sync_run fd s ops Hs).
  destruct (load_saved0 fb (run fd s ops)) as [E1 E2].
  { eapply Forall_impl; [exact Hwf'|apply wf_task_wf_task0]. }
  split; [|exact E2]. rewrite E1.
  clear E1 E2. induction Hwf' as [|t l Ht _ IH]; [reflexivity|].
  cbn [map]. rewrite reload_task_wf by exact Ht. rewrite IH. reflexivity.
Qed.

(** ** Clearing, deleting, editing *)

(** A confirmed [clearCompleted] keeps exactly the tasks the Active
    filter shows, in order, so the Completed view becomes empty; storage
    follows and no alert is shown.  An unconfirmed one changes nothing. *)
Theorem clearCompleted_spec (s : TodoApp) :
  tasks (clearCompleted s true) = getFilteredTasks (setFilter s (JString (js "active"))) /\
  getFilteredTasks (setFilter (clearCompleted s true) (JString (js "completed"))) = [] /\
  in_sync (clearCompleted s true) /\
  alerts (clearCompleted s true) = alerts s /\
  clearCompleted s false = s.
Proof.
  rewrite getFilteredTasks_completed, getFilteredTasks_active. unfold clearCompleted. app_simpl.
  split_and!; try reflexivity.
  apply List_filter_none. apply Forall_forall. intros t Ht.
  apply list_elem_of_In, filter_In in Ht as [_ Ht]. apply negb_true_iff. exact Ht.
Qed.

(** A confirmed [clearAll] empties the collection and stores ["[]"],
    which a reload reads back as an empty collection without error.  An
    unconfirmed one changes nothing. *)
Theorem clearAll_spec (fb : jstr -> option Z) (s : TodoApp) :
  tasks (clearAll s true) = [] /\
  storage (clearAll s true) = Some (js "[]") /\
  tasks (new_TodoApp fb (storage (clearAll s true))) = [] /\
  console_errors (new_TodoApp fb (storage (clearAll s true))) = [] /\
  clearAll s false = s.
Proof. split_and!; reflexivity. Qed.

Lemma number_eqb_eq (a b : number) : number_eqb a b = true <-> a = b.
Proof.
  destruct a as [|m e], b as [|m' e']; simpl; split; intros H; try discriminate; try reflexivity.
  - apply andb_true_iff in H as [H1 H2]. apply Z.eqb_eq in H1, H2. subst. reflexivity.
  - injection H as -> ->. rewrite !Z.eqb_refl. reflexivity.
Qed.

Lemma strict_eq_JNumber (v : jsval) (n : number) : strict_eq v (JNumber n) = true <-> v = JNumber n.
Proof.
  destruct v; simpl; split; intros H; try discriminate; try (injection H as ->).
  - apply number_eqb_eq in H. subst. reflexivity.
  - apply number_eqb_eq. reflexivity.
Qed.

(** When ids are unique, a confirmed [deleteTask] with the id of a task
    removes exactly that task and keeps the others in order; storage
    follows. *)
Theorem deleteTask_unique (s : TodoApp) (l1 l2 : list Task) (t : Task) (n : number) :
  tasks s = l1 ++ t :: l2 -> id t = JNumber n -> NoDup (map id (tasks s)) ->
  tasks (deleteTask s (JNumber n) true) = l1 ++ l2 /\ in_sync (deleteTask s (JNumber n) true).
Proof.
  intros E Hid Hnd. split; [|reflexivity]. unfold deleteTask. app_simpl. rewrite E.
  rewrite E, map_app in Hnd. cbn [map] in Hnd. rewrite Hid in Hnd.
  apply NoDup_app in Hnd as (_ & Hout & Hnd2). apply NoDup_cons in Hnd2 as [Hn2 _].
  assert (Hkeep : forall l, (JNumber n) ∉ map id l ->
            List.filter (fun t => negb (strict_eq (id t) (JNumber n))) l = l).
  { induction l as [|u l IH]; intros Hl; [reflexivity|]. cbn [map] in Hl.
    apply not_elem_of_cons in Hl as [Hu Hl]. cbn [List.filter].
    destruct (strict_eq (id u) (JNumber n)) eqn:Eu.
    - apply strict_eq_JNumber in Eu. congruence.
    - cbn [negb]. rewrite IH by exact Hl. reflexivity. }
  rewrite List.filter_app. cbn [List.filter]. rewrite Hid.
  replace (strict_eq (JNumber n) (JNumber n)) with true by (symmetry; apply strict_eq_JNumber; reflexivity).
  cbn [negb]. rewrite !Hkeep; [reflexivity|exact Hn2|].
  intros Hin. apply (Hout (JNumber n)); [exact Hin|left].
Qed.


Lemma List_filter_insert_length (p : Task -> bool) (l : list Task) (k : nat) (t t' : Task) :
  l !! k = Some t ->
  (length (List.filter p (<[k := t']> l)) + (if p t then 1 else 0) =
   length (List.filter p l) + (if p t' then 1 else 0))%nat.
Proof.
  revert k. induction l as [|u l IH]; intros [|k] Hk; try discriminate.
  - injection Hk as ->. simpl. destruct (p t), (p t'); simpl; lia.
  - simpl in Hk |- *. specialize (IH k Hk). destruct (p u); simpl; lia.
Qed.

(** Toggling a task moves it between the counts: the total is unchanged,
    and the completed count goes down by one (active up by one) if the task
    was completed, up by one (active down by one) otherwise. *)
Theorem toggle_stats (s : TodoApp) (i : jsval) (k : nat) (t : Task) :
  find_task (tasks s) i = Some (k, t) ->
  let '(total, active, ncompleted) := updateStats s in
  let '(total', active', ncompleted') := updateStats (toggleTask s i) in
  total' = total /\
  (if truthy (completed t) then ncompleted' = ncompleted - 1 /\ active' = active + 1
   else ncompleted' = ncompleted + 1 /\ active' = active - 1).
Proof.
  intros F. unfold toggleTask. rewrite F. unfold updateStats. app_simpl.
  apply find_task_Some in F as (Hk & _ & _).
  pose proof (List_filter_insert_length (fun t => truthy (completed t)) (tasks s) k t
    (set_completed t (JBool (negb (truthy (completed t))))) Hk) as L.
  rewrite length_insert. cbn [set_completed completed truthy] in L.
  destruct (truthy (completed t)); cbn [negb] in L |- *; split_and!; lia.
Qed.

(** ** Instances *)

Lemma app1_wf : Forall wf_task (tasks app1).
Proof.
  constructor; [|constructor]. split_and!.
  - exists 1700000000000. split; [reflexivity|simpl; lia].
  - exists (js "Buy milk"). split; [reflexivity|apply js_code_units].
  - exists false. reflexivity.
  - exists 1700000000000. split; [reflexivity|simpl; lia].
Qed.

Lemma escapeHtml_no_markup_witness :
  escapeHtml (JString (js "a<b")) = Ok (js "a&lt;b") /\ (60 ∉ js "a&lt;b") /\ (62 ∉ js "a&lt;b").
Proof.
  assert (H : escapeHtml (JString (js "a<b")) = Ok (js "a&lt;b")) by reflexivity.
  split; [exact H|]. exact (escapeHtml_no_markup _ _ H).
Defined.

Lemma escapeHtml_injective_witness :
  escapeHtml (JString (js "Tom & Jerry")) = escapeHtml (JString (js "Tom & Jerry")) /\
  js "Tom & Jerry" = js "Tom & Jerry".
Proof.
  assert (H : escapeHtml (JString (js "Tom & Jerry")) = escapeHtml (JString (js "Tom & Jerry")))
    by reflexivity.
  split; [exact H|]. exact (escapeHtml_injective _ _ H).
Defined.

Lemma render_wf_witness :
  Forall wf_task (tasks app1) /\
  exists v, render (fun _ => js "Nov 14, 10:13 PM") app1 = Ok v /\
    empty_shown v = bool_decide (getFilteredTasks app1 = []) /\
    Forall2 (item_of (fun _ => js "Nov 14, 10:13 PM")) (getFilteredTasks app1) (items v).
Proof. split; [exact app1_wf|]. exact (render_wf _ app1 app1_wf). Defined.

Lemma run_in_sync_witness :
  in_sync (saveTasks app0) /\ in_sync (run fd0 (saveTasks app0) [OpAdd (js "A") 5 5; OpClearCompleted false]).
Proof.
  assert (H : in_sync (saveTasks app0)) by reflexivity.
  split; [exact H|]. exact (run_in_sync _ _ _ H).
Defined.

Lemma run_texts_trimmed_witness :
  Forall text_ok (tasks app1) /\
  Forall text_ok (tasks (run fd0 app1 [OpAdd (js "  Bread ") 5 5; OpEdit (JNumber (num_of_Z 5)) (js " Rye bread")])).
Proof.
  assert (H : Forall text_ok (tasks app1)).
  { constructor; [|constructor]. exists (js "Buy milk"). split_and!; [reflexivity|discriminate|reflexivity]. }
  split; [exact H|]. exact (run_texts_trimmed _ _ _ H).
Defined.

Lemma save_load_invalid_date_witness :
  Forall wf_task0 (tasks app_invalid) /\
  tasks (new_TodoApp (fun _ => None) (storage (saveTasks app_invalid))) = map reload_task (tasks app_invalid).
Proof.
  assert (H : Forall wf_task0 (tasks app_invalid)).
  { constructor; [|constructor]. split_and!.
    - exists 1. split; [reflexivity|simpl; lia].
    - exists (js "Old"). split; [reflexivity|apply js_code_units].
    - exists true. reflexivity.
    - left. reflexivity. }
  split; [exact H|]. exact (proj1 (save_load_invalid_date (fun _ => None) app_invalid H)).
Defined.

Lemma reload_after_run_witness :
  (Forall wf_task (tasks (saveTasks app1)) /\ in_sync (saveTasks app1) /\
   Forall op_ok [OpAdd (js "Bread") 1700000000001 1700000000001;
                 OpToggle (JNumber (num_of_Z 1700000000000))]) /\
  tasks (new_TodoApp (fun _ => None)
           (storage (run fd0 (saveTasks app1) [OpAdd (js "Bread") 1700000000001 1700000000001;
                                           OpToggle (JNumber (num_of_Z 1700000000000))]))) =
  tasks (run fd0 (saveTasks app1) [OpAdd (js "Bread") 1700000000001 1700000000001;
                               OpToggle (JNumber (num_of_Z 1700000000000))]).
Proof.
  assert (H1 : Forall wf_task (tasks (saveTasks app1))) by exact app1_wf.
  assert (H2 : in_sync (saveTasks app1)) by reflexivity.
  assert (H3 : Forall op_ok [OpAdd (js "Bread") 1700000000001 1700000000001;
                             OpToggle (JNumber (num_of_Z 1700000000000))]).
  { constructor; [|constructor; [exact I|constructor]].
    split_and!; [apply js_code_units|simpl; lia|simpl; lia]. }
  split; [split_and!; assumption|]. exact (proj1 (reload_after_run (fun _ => None) _ _ _ H1 H2 H3)).
Defined.

Lemma deleteTask_unique_witness :
  (tasks app2 = [task_a] ++ task_b :: [task_c] /\ id task_b = JNumber (num_of_Z 2) /\
   NoDup (map id (tasks app2))) /\
  tasks (deleteTask app2 (JNumber (num_of_Z 2)) true) = [task_a] ++ [task_c].
Proof.
  assert (H1 : tasks app2 = [task_a] ++ task_b :: [task_c]) by reflexivity.
  assert (H2 : id task_b = JNumber (num_of_Z 2)) by reflexivity.
  assert (H3 : NoDup (map id (tasks app2))).
  { cbn. repeat (apply NoDup_cons; split); try (apply NoDup_nil; exact I);
      intros Hin; repeat (apply elem_of_cons in Hin as [Hin|Hin]; [discriminate|]);
      apply elem_of_nil in Hin; exact Hin. }
  split; [split_and!; assumption|]. exact (proj1 (deleteTask_unique _ _ _ _ _ H1 H2 H3)).
Defined.


Lemma toggle_stats_witness :
  find_task (tasks app1) (JNumber (num_of_Z 1700000000000)) = Some (0%nat, task1) /\
  updateStats (toggleTask app1 (JNumber (num_of_Z 1700000000000))) = (1, 0, 1).
Proof.
  assert (H : find_task (tasks app1) (JNumber (num_of_Z 1700000000000)) = Some (0%nat, task1))
    by reflexivity.
  split; [exact H|]. pose proof (toggle_stats _ _ _ _ H) as T.
  change (updateStats app1) with (1, 1, 0) in T.
  destruct (updateStats (toggleTask app1 (JNumber (num_of_Z 1700000000000)))) as [[a b] c].
  cbn in T. destruct T as (-> & -> & ->). reflexivity.
Defined.

(** ** C1: a valid [addTask] *)

Lemma render_Ok_shown (fd : time_value -> jstr) (s : TodoApp) :
  (exists v, render fd s = Ok v) <->
  Forall (fun t => (exists a, to_str (id t) = Ok a) /\ (exists h, escapeHtml (text t) = Ok h))
         (getFilteredTasks s).
Proof.
  unfold render. rewrite <- (Forall_iff _ _ _ (render_item_Ok fd)), <- emap_Ok_iff.
  destruct (emap (render_item fd) (getFilteredTasks s)) as [its|e]; cbn.
  - split; intros _; eexists; reflexivity.
  - split; intros [? H]; discriminate.
Qed.

Lemma app2_wf : Forall wf_task (tasks app2).
Proof.
  repeat (apply Forall_cons; split); [| | |apply Forall_nil; exact I]; split_and!;
    first [eexists; split; [reflexivity|]; first [apply js_code_units | simpl; lia]
          | eexists; reflexivity].
Qed.

Lemma wf_task_renders (t : Task) :
  wf_task t -> (exists a, to_str (id t) = Ok a) /\ (exists h, escapeHtml (text t) = Ok h).
Proof. intros ((z & -> & _) & (x & -> & _) & _). split; eexists; reflexivity. Qed.

Lemma addTask_valid (fd : time_value -> jstr) (s : TodoApp) (now_id now_date : Z) :
  trim (taskInput s) <> [] -> Z.of_nat (length (trim (taskInput s))) <= 100 ->
  addTask fd s now_id now_date =
    (saveTasks (with_input (with_tasks s (tasks s ++ [mkTask (JNumber (num_of_Z now_id))
        (JString (trim (taskInput s))) (JBool false) (Some now_date)])) []),
     _ ← render fd (saveTasks (with_input (with_tasks s (tasks s ++ [mkTask (JNumber (num_of_Z now_id))
        (JString (trim (taskInput s))) (JBool false) (Some now_date)])) [])); Ok RUndefined).
Proof.
  intros E L. unfold addTask. rewrite bool_decide_false by auto.
  destruct (100 <? _) eqn:F; [apply Z.ltb_lt in F; lia|]. reflexivity.
Qed.

(** C1, as the code has it.  For an input whose trimmed form is
    non-empty and at most 100 code units long, [addTask] appends exactly
    one task (the collection grows by one) with [id] the reading of
    [Date.now()], [text] the trimmed input, [completed] false and
    [createdAt] the reading of [new Date()], and saves the collection.
    It then calls [render()]: the call returns [undefined], never the new
    task, when rendering completes, which it does exactly when every task
    the current filter shows has an id and a text that convert to
    strings, in particular when every task already held is well-formed;
    otherwise the exception of [render] escapes [addTask], after the task
    has been appended and saved. *)
Theorem addTask_appends (fd : time_value -> jstr) (s : TodoApp) (now_id now_date : Z) :
  trim (taskInput s) <> [] -> Z.of_nat (length (trim (taskInput s))) <= 100 ->
  tasks (fst (addTask fd s now_id now_date)) =
    tasks s ++ [mkTask (JNumber (num_of_Z now_id)) (JString (trim (taskInput s))) (JBool false) (Some now_date)] /\
  length (tasks (fst (addTask fd s now_id now_date))) = S (length (tasks s)) /\
  in_sync (fst (addTask fd s now_id now_date)) /\
  snd (addTask fd s now_id now_date) =
    (_ ← render fd (fst (addTask fd s now_id now_date)); Ok RUndefined) /\
  (forall r, snd (addTask fd s now_id now_date) = Ok r -> r = RUndefined) /\
  (snd (addTask fd s now_id now_date) = Ok RUndefined <->
     Forall (fun t => (exists a, to_str (id t) = Ok a) /\ (exists h, escapeHtml (text t) = Ok h))
            (getFilteredTasks (fst (addTask fd s now_id now_date)))) /\
  (Forall wf_task (tasks s) -> snd (addTask fd s now_id now_date) = Ok RUndefined).
Proof.
  intros E L. rewrite (addTask_valid fd s now_id now_date E L). cbn [fst snd].
  set (s' := saveTasks _).
  assert (Ht : tasks s' = tasks s ++ [mkTask (JNumber (num_of_Z now_id))
                 (JString (trim (taskInput s))) (JBool false) (Some now_date)]) by reflexivity.
  split_and!.
  - exact Ht.
  - rewrite Ht, length_app. simpl. lia.
  - apply in_sync_saveTasks.
  - reflexivity.
  - intros r. destruct (render fd s'); cbn; congruence.
  - split.
    + intros H. apply (proj1 (render_Ok_shown fd s')). destruct (render fd s') as [v|e]; cbn in H; [|discriminate].
      exists v. reflexivity.
    + intros H. apply (proj2 (render_Ok_shown fd s')) in H as [v Hv]. rewrite Hv. reflexivity.
  - intros Hw. destruct (proj2 (render_Ok_shown fd s')) as [v Hv].
    + apply Forall_getFilteredTasks. rewrite Ht. apply Forall_app. split.
      * eapply Forall_impl; [exact Hw|]. exact wf_task_renders.
      * constructor; [split; eexists; reflexivity|constructor].
    + rewrite Hv. reflexivity.
Qed.

Lemma addTask_appends_witness :
  (trim (taskInput (with_input app2 (js " Buy bread "))) <> [] /\
   Z.of_nat (length (trim (taskInput (with_input app2 (js " Buy bread "))))) <= 100) /\
  (tasks (fst (addTask fd0 (with_input app2 (js " Buy bread ")) 1700000000005 1700000000006)) =
     [task_a; task_b; task_c;
      mkTask (JNumber (num_of_Z 1700000000005)) (JString (js "Buy bread")) (JBool false) (Some 1700000000006)] /\
   length (tasks (fst (addTask fd0 (with_input app2 (js " Buy bread ")) 1700000000005 1700000000006))) = 4%nat /\
   snd (addTask fd0 (with_input app2 (js " Buy bread ")) 1700000000005 1700000000006) = Ok RUndefined).
Proof.
  assert (H1 : trim (taskInput (with_input app2 (js " Buy bread "))) <> []) by (vm_compute; discriminate).
  assert (H2 : Z.of_nat (length (trim (taskInput (with_input app2 (js " Buy bread "))))) <= 100)
    by (vm_compute; discriminate).
  split; [split; assumption|].
  destruct (addTask_appends fd0 (with_input app2 (js " Buy bread ")) 1700000000005 1700000000006 H1 H2)
    as (T & N & _ & _ & _ & _ & W).
  split_and!.
  - rewrite T. reflexivity.
  - rewrite N. reflexivity.
  - apply W. exact app2_wf.
Defined.

(** C1 fails as stated.  Adding "Buy milk" does not return the new task
    but [undefined].  And when the collection holds a task loaded from a
    stored text {"toString":1}, adding "Buy milk" appends and saves the
    new task, then throws the TypeError of [render]. *)
Lemma addTask_returns_undefined :
  (~ exists t, last (tasks (fst (addTask fd0 (with_input app2 (js "Buy milk")) 1 1))) = Some t /\
               snd (addTask fd0 (with_input app2 (js "Buy milk")) 1 1) = Ok (RTask t)) /\
  length (tasks app_obj_text) = 1%nat /\
  length (tasks (fst (addTask fd0 (with_input app_obj_text (js "Buy milk")) 1 1))) = 2%nat /\
  in_sync (fst (addTask fd0 (with_input app_obj_text (js "Buy milk")) 1 1)) /\
  snd (addTask fd0 (with_input app_obj_text (js "Buy milk")) 1 1) = Throw TypeError.
Proof.
  split_and!.
  - intros [t [_ H]]. vm_compute in H. discriminate.
  - vm_compute. reflexivity.
  - vm_compute. reflexivity.
  - vm_compute. reflexivity.
  - vm_compute. reflexivity.
Qed.

(** ** C8: ids of no task *)







